(** * The phone-number checker of [streamlit_app.py]

    A shallow embedding of the rule chain of the application
    ([analyze_phone_number] and the functions it calls), of the report form
    and of the two Gemini adapters, followed by the properties of the
    specification that concern them.

    Python values are modelled as follows.
    - A [str] is the list of its Unicode code points: slicing ([s[:200]]),
      [startswith], [==] and the character classes of [re] all work on code
      points.  Literals are written as in the source and decoded from UTF-8
      by [py].
    - The dictionaries with a fixed set of keys (the result of a check, the
      caller information, a reported case, the scam database and the session
      state) are records.
    - The four risk labels are an enumeration, [risk_label] gives the text
      that the source stores.
    - A parsed JSON document is a [json] value; Python's [None] is [JNull].
    - A call that can raise returns a [pyres]: [Ok v] or [Raise e]. *)

From Stdlib Require Import List String Ascii NArith ZArith Bool Lia.
From Stdlib Require Import Sorting.Sorted.
Import ListNotations.

(** ** Strings *)

Module PyStr.

Definition char := N.
Definition str := list char.

(** UTF-8 decoding of a literal: one code point from one to four bytes. *)
Fixpoint utf8_decode (bs : list N) : str :=
  match bs with
  | [] => []
  | b0 :: t0 =>
    if (b0 <? 128)%N then b0 :: utf8_decode t0
    else if (b0 <? 224)%N then
      match t0 with
      | b1 :: t1 => ((b0 - 192) * 64 + (b1 - 128))%N :: utf8_decode t1
      | [] => [b0]
      end
    else if (b0 <? 240)%N then
      match t0 with
      | b1 :: b2 :: t2 =>
        ((b0 - 224) * 4096 + (b1 - 128) * 64 + (b2 - 128))%N :: utf8_decode t2
      | _ => [b0]
      end
    else
      match t0 with
      | b1 :: b2 :: b3 :: t3 =>
        ((b0 - 240) * 262144 + (b1 - 128) * 4096 + (b2 - 128) * 64 + (b3 - 128))%N
          :: utf8_decode t3
      | _ => [b0]
      end
  end.

Definition py (s : string) : str :=
  utf8_decode (map N_of_ascii (list_ascii_of_string s)).

(** [a == b] on strings. *)
Fixpoint str_eqb (a b : str) : bool :=
  match a, b with
  | [], [] => true
  | x :: a', y :: b' => (x =? y)%N && str_eqb a' b'
  | _, _ => false
  end.

(** [s.startswith(p)] *)
Fixpoint startswith (s p : str) {struct p} : bool :=
  match p with
  | [] => true
  | y :: p' =>
    match s with
    | [] => false
    | x :: s' => (x =? y)%N && startswith s' p'
    end
  end.

(** [x in l] for a list of strings. *)
Definition str_in (x : str) (l : list str) : bool := existsb (str_eqb x) l.

(** [str(n)] of a non-negative [int]. *)
Fixpoint digits_of_uint (d : Decimal.uint) : str :=
  match d with
  | Decimal.Nil => []
  | Decimal.D0 d' => 48%N :: digits_of_uint d'
  | Decimal.D1 d' => 49%N :: digits_of_uint d'
  | Decimal.D2 d' => 50%N :: digits_of_uint d'
  | Decimal.D3 d' => 51%N :: digits_of_uint d'
  | Decimal.D4 d' => 52%N :: digits_of_uint d'
  | Decimal.D5 d' => 53%N :: digits_of_uint d'
  | Decimal.D6 d' => 54%N :: digits_of_uint d'
  | Decimal.D7 d' => 55%N :: digits_of_uint d'
  | Decimal.D8 d' => 56%N :: digits_of_uint d'
  | Decimal.D9 d' => 57%N :: digits_of_uint d'
  end.

Definition str_of_int (n : N) : str := digits_of_uint (N.to_uint n).

(** [str.isspace] on one code point, which is what [\s] matches in a
    pattern applied to a [str]. *)
Definition isspace (c : char) : bool :=
  ((9 <=? c) && (c <=? 13) || (28 <=? c) && (c <=? 32)
   || (c =? 133) || (c =? 160) || (c =? 5760)
   || (8192 <=? c) && (c <=? 8202)
   || (c =? 8232) || (c =? 8233) || (c =? 8239) || (c =? 8287)
   || (c =? 12288))%N.

Definition isdigit_ascii (c : char) : bool := ((48 <=? c) && (c <=? 57))%N.

End PyStr.
Import PyStr.

Arguments py : simpl never.

(** ** Normalization *)

(** The character class [[-\s()]] of the pattern on line 306. *)
Definition is_separator (c : char) : bool :=
  ((c =? 45) || isspace c || (c =? 40) || (c =? 41))%N.

(** [re.sub(r'[-\s()]+', '', number)]: every maximal run of separators is
    replaced by the empty string, the other characters are copied. *)
Fixpoint strip_separators (number : str) : str :=
  match number with
  | [] => []
  | c :: rest =>
    if is_separator c then strip_separators rest
    else c :: strip_separators rest
  end.

Definition normalize (number : str) : str := strip_separators number.

(** ** Exceptions *)

(** An exception is known by its class; [exn_is_Exception] tells whether the
    class derives from [Exception], which is what [except Exception]
    catches (a bare [except:] catches every one). *)
Record exn := mkExn { exn_class : string; exn_is_Exception : bool }.

Definition AttributeError : exn := mkExn "AttributeError" true.

Inductive pyres (A : Type) : Type :=
| Ok (a : A)
| Raise (e : exn).
Arguments Ok {A} a.
Arguments Raise {A} e.

Definition bind {A B : Type} (c : pyres A) (k : A -> pyres B) : pyres B :=
  match c with
  | Ok a => k a
  | Raise e => Raise e
  end.

Notation "x <- c ;; k" := (bind c (fun x => k))
  (at level 61, c at next level, right associativity).

(** [try: c  except: h] *)
Definition try_except {A : Type} (c : pyres A) (h : exn -> pyres A) : pyres A :=
  match c with
  | Ok a => Ok a
  | Raise e => h e
  end.

(** [try: c  except Exception as e: h e] *)
Definition try_except_Exception {A : Type} (c : pyres A) (h : exn -> pyres A)
  : pyres A :=
  match c with
  | Ok a => Ok a
  | Raise e => if exn_is_Exception e then h e else Raise e
  end.

(** ** Parsed JSON *)

(** What [json.loads] returns.  A [float] is kept as its text together with
    whether it is non-zero: its truth value and its text are all that the
    application can observe of it.  The items of a [JDict] have distinct
    keys. *)
#[local] Set Warnings "-register-all".
Inductive json : Type :=
| JNull
| JBool (b : bool)
| JInt (z : Z)
| JFloat (nonzero : bool) (text : str)
| JStr (s : str)
| JList (l : list json)
| JDict (items : list (str * json)).

(** [bool(v)], the test of [if v:]. *)
Definition truthy (v : json) : bool :=
  match v with
  | JNull => false
  | JBool b => b
  | JInt z => negb (z =? 0)%Z
  | JFloat nonzero _ => nonzero
  | JStr s => match s with [] => false | _ => true end
  | JList l => match l with [] => false | _ => true end
  | JDict items => match items with [] => false | _ => true end
  end.

Fixpoint lookup (key : str) (items : list (str * json)) : option json :=
  match items with
  | [] => None
  | (k, v) :: rest => if str_eqb k key then Some v else lookup key rest
  end.

(** [v.get(key, default)]: only a [dict] has the method. *)
Definition json_get (v : json) (key : str) (default : json) : pyres json :=
  match v with
  | JDict items =>
    match lookup key items with
    | Some x => Ok x
    | None => Ok default
    end
  | _ => Raise AttributeError
  end.

(** [v == s] for a string literal [s]. *)
Definition json_eq_str (v : json) (s : str) : bool :=
  match v with
  | JStr t => str_eqb t s
  | _ => false
  end.

(** ** Patterns *)

(** The patterns of the database in parsed form. [RAny] is [.], [RBol] is
    [^] (without [re.MULTILINE]). *)
Inductive regex : Type :=
| RNone
| REps
| RChar (c : char)
| RAny
| RBol
| RSeq (r1 r2 : regex)
| RAlt (r1 r2 : regex)
| RStar (r : regex).

(** Whether [r] matches the empty string; [start] tells whether the
    position is the beginning of the subject. *)
Fixpoint nullable (start : bool) (r : regex) : bool :=
  match r with
  | RNone => false
  | REps => true
  | RChar _ => false
  | RAny => false
  | RBol => start
  | RSeq r1 r2 => nullable start r1 && nullable start r2
  | RAlt r1 r2 => nullable start r1 || nullable start r2
  | RStar _ => true
  end.

(** What remains to be matched once [c] has been read. *)
Fixpoint deriv (start : bool) (c : char) (r : regex) : regex :=
  match r with
  | RNone => RNone
  | REps => RNone
  | RChar c' => if (c =? c')%N then REps else RNone
  | RAny => if (c =? 10)%N then RNone else REps
  | RBol => RNone
  | RSeq r1 r2 =>
    RAlt (RSeq (deriv start c r1) r2)
         (if nullable start r1 then deriv start c r2 else RNone)
  | RAlt r1 r2 => RAlt (deriv start c r1) (deriv start c r2)
  | RStar r1 => RSeq (deriv start c r1) (RStar r1)
  end.

Fixpoint match_from (start : bool) (r : regex) (s : str) : bool :=
  nullable start r ||
  match s with
  | [] => false
  | c :: rest => match_from false (deriv start c r) rest
  end.

(** [re.match(pattern, s)] as a truth value: some prefix of [s] matches. *)
Definition re_match (pattern : regex) (s : str) : bool :=
  match_from true pattern s.

Fixpoint literal (s : str) : regex :=
  match s with
  | [] => REps
  | c :: rest => RSeq (RChar c) (literal rest)
  end.

(** ** Records *)

Inductive risk : Type := Safe | Caution | Danger | Emergency.

(** The text stored under ["risk_level"]. *)
Definition risk_label (l : risk) : str :=
  match l with
  | Safe => py "安全"
  | Caution => py "注意"
  | Danger => py "危険"
  | Emergency => py "緊急"
  end.

Definition risk_eqb (a b : risk) : bool :=
  match a, b with
  | Safe, Safe | Caution, Caution | Danger, Danger | Emergency, Emergency => true
  | _, _ => false
  end.

(** The order safe, caution, danger of the escalation. *)
Definition risk_rank (l : risk) : nat :=
  match l with
  | Safe => 0
  | Caution => 1
  | Danger => 2
  | Emergency => 3
  end.

Definition risk_le (a b : risk) : Prop := risk_rank a <= risk_rank b.

Record caller_info := mkCaller {
  type_ : str;
  confidence : str;
  caller_details : list str;
  category : str
}.

Record result := mkResult {
  original : str;
  normalized : str;
  risk_level : risk;
  warnings : list str;
  details : list str;
  recommendations : list str;
  timestamp : str;
  ai_analysis : json;
  caller_type : option caller_info
}.

Record case := mkCase {
  case_number : str;
  case_description : str;
  case_timestamp : str;
  case_reports : N
}.

Record scam_database := mkDb {
  known_scam_numbers : list str;
  suspicious_prefixes : list str;
  warning_patterns : list regex;
  safe_prefixes : list str;
  reported_cases : list case
}.

(** [st.session_state] *)
Record session := mkSession {
  check_history : list result;
  scam_db : scam_database;
  gemini_api_key : str;
  ai_enabled : bool
}.

Definition set_risk_level (l : risk) (r : result) : result :=
  mkResult (original r) (normalized r) l (warnings r) (details r)
           (recommendations r) (timestamp r) (ai_analysis r) (caller_type r).

Definition append_warning (w : str) (r : result) : result :=
  mkResult (original r) (normalized r) (risk_level r) (warnings r ++ [w])
           (details r) (recommendations r) (timestamp r) (ai_analysis r)
           (caller_type r).

Definition append_detail (d : str) (r : result) : result :=
  mkResult (original r) (normalized r) (risk_level r) (warnings r)
           (details r ++ [d]) (recommendations r) (timestamp r)
           (ai_analysis r) (caller_type r).

Definition append_recommendation (x : str) (r : result) : result :=
  mkResult (original r) (normalized r) (risk_level r) (warnings r)
           (details r) (recommendations r ++ [x]) (timestamp r)
           (ai_analysis r) (caller_type r).

Definition set_ai_analysis (v : json) (r : result) : result :=
  mkResult (original r) (normalized r) (risk_level r) (warnings r)
           (details r) (recommendations r) (timestamp r) v (caller_type r).

Definition set_caller_type (c : caller_info) (r : result) : result :=
  mkResult (original r) (normalized r) (risk_level r) (warnings r)
           (details r) (recommendations r) (timestamp r) (ai_analysis r)
           (Some c).

Definition append_history (r : result) (st : session) : session :=
  mkSession (check_history st ++ [r]) (scam_db st) (gemini_api_key st)
            (ai_enabled st).

Definition set_reported_cases (cs : list case) (db : scam_database)
  : scam_database :=
  mkDb (known_scam_numbers db) (suspicious_prefixes db) (warning_patterns db)
       (safe_prefixes db) cs.

Definition set_scam_db (db : scam_database) (st : session) : session :=
  mkSession (check_history st) db (gemini_api_key st) (ai_enabled st).

(** ** Caller type, area and number type *)

(** The first entry of a table (a [dict] in insertion order) whose key is a
    prefix of [number]. *)
Fixpoint first_prefix (number : str) (table : list (str * str)) : option str :=
  match table with
  | [] => None
  | (prefix, v) :: rest =>
    if startswith number prefix then Some v else first_prefix number rest
  end.

Definition emergency_numbers : list str := [py "110"; py "119"; py "118"].

Definition area_codes : list (str * str) :=
  [ (py "03", py "東京"); (py "06", py "大阪"); (py "052", py "名古屋");
    (py "011", py "札幌"); (py "092", py "福岡"); (py "075", py "京都") ].

Definition identify_area (number : str) : str :=
  match first_prefix number area_codes with
  | Some area => area
  | None => py "不明"
  end.

Definition identify_number_type (normalized : str) : str :=
  if startswith normalized (py "0120") || startswith normalized (py "0800")
  then py "フリーダイヤル"
  else if startswith normalized (py "050") then py "IP電話"
  else if startswith normalized (py "090") || startswith normalized (py "080")
          || startswith normalized (py "070")
  then py "携帯電話"
  else if startswith normalized (py "0570") then py "ナビダイヤル"
  else if startswith normalized (py "0") then py "固定電話"
  else if startswith normalized (py "+") then py "国際電話"
  else py "不明".

Definition government_patterns : list (str * str) :=
  [ (py "03-3581", py "官公庁（霞が関周辺）");
    (py "03-5253", py "厚生労働省・文部科学省エリア");
    (py "03-3580", py "警察庁周辺");
    (py "03-5321", py "都庁・都の機関");
    (py "06-6941", py "大阪府庁周辺") ].

Definition bank_patterns : list (str * str) :=
  [ (py "0120-86", py "三菱UFJ銀行系");
    (py "0120-77", py "三井住友銀行系");
    (py "0120-65", py "みずほ銀行系");
    (py "0120-39", py "ゆうちょ銀行系") ].

Definition identify_caller_type (number normalized : str) : caller_info :=
  if str_in normalized emergency_numbers then
    mkCaller (py "緊急通報番号") (py "確実") [py "警察・消防・海上保安庁"]
             (py "公的機関")
  else
  match first_prefix number government_patterns with
  | Some org => mkCaller (py "公的機関") (py "高") [org] (py "公的機関")
  | None =>
  match first_prefix number bank_patterns with
  | Some bank =>
    mkCaller (py "金融機関") (py "中")
             [bank; py "⚠️ 本物か必ず確認してください"] (py "一般企業")
  | None =>
    if startswith normalized (py "0120") || startswith normalized (py "0800")
    then
      mkCaller (py "企業カスタマーサポート") (py "中")
               [py "フリーダイヤル（通話無料）"; py "企業からの連絡が多い"]
               (py "一般企業")
    else if startswith normalized (py "0570") then
      mkCaller (py "企業ナビダイヤル") (py "中")
               [py "通話料有料（高額になることも）"; py "企業のサポートセンター等"]
               (py "一般企業")
    else if startswith normalized (py "050") then
      mkCaller (py "IP電話利用者") (py "低")
               [py "個人/企業どちらも可能性あり"; py "IP電話は匿名性が高い";
                py "⚠️ 詐欺に悪用されやすい"]
               (py "不明")
    else if startswith normalized (py "090") || startswith normalized (py "080")
            || startswith normalized (py "070")
    then
      mkCaller (py "個人携帯電話") (py "高")
               [py "個人契約の携帯電話"; py "まれに法人契約もあり"] (py "個人")
    else if startswith normalized (py "020") then
      mkCaller (py "ポケベル・M2M") (py "高") [py "IoT機器等の通信"] (py "特殊")
    else if startswith normalized (py "0") then
      let area := identify_area number in
      if negb (str_eqb area (py "不明")) then
        mkCaller (py "固定電話（企業または個人宅）") (py "中")
                 [py "地域: " ++ area; py "企業のオフィスまたは個人宅"]
                 (py "企業または個人")
      else mkCaller (py "固定電話") (py "低") [] (py "不明")
    else if startswith number (py "+") || startswith normalized (py "010") then
      mkCaller (py "国際電話") (py "確実")
               [py "海外からの着信"; py "⚠️ 国際詐欺に注意"] (py "国際")
    else mkCaller (py "不明") (py "低") [] (py "その他")
  end
  end.

(** ** The Gemini client *)

(** The values interpolated into the prompt of [analyze_with_gemini]; the
    fixed text around them is the same in every call. *)
Record number_prompt := mkNumberPrompt {
  prompt_number : str;
  prompt_normalized : str;
  prompt_number_type : str;
  prompt_area : str;
  prompt_caller_type : str;
  prompt_category : str;
  prompt_risk_level : str
}.

Inductive prompt : Type :=
| NumberPrompt (fields : number_prompt)
| ConversationPrompt (conversation_text : str).

(** [response.text] is a property and can raise. *)
Record response := mkResponse { text : pyres str }.

(** The [google.generativeai] module as the application uses it. *)
Record genai := mkGenai {
  GEMINI_AVAILABLE : bool;
  configure : str -> pyres unit;
  GenerativeModel : string -> pyres unit;
  generate_content : prompt -> pyres response
}.

(** The record returned when the answer of the model is not JSON. *)
Definition number_fallback (summary : str) : json :=
  JDict
    [ (py "caller_identification",
       JDict [ (py "most_likely", JStr (py "不明"));
               (py "confidence", JStr (py "低"));
               (py "reasoning", JStr (py "分析失敗")) ]);
      (py "business_type", JStr (py "不明"));
      (py "ai_risk_assessment", JStr (py "不明"));
      (py "confidence_score", JInt 0);
      (py "fraud_patterns", JList []);
      (py "similar_cases", JList []);
      (py "recommendations", JList []);
      (py "conversation_warnings", JList []);
      (py "summary", JStr summary) ].

Definition conversation_fallback (explanation : str) : json :=
  JDict [ (py "explanation", JStr explanation) ].

(** [l[i] if len(l) > i else '不明'] *)
Definition nth_or_unknown (i : nat) (l : list str) : str :=
  nth i l (py "不明").

(** ** The session state at start-up (lines 28 to 54) *)

Definition initial_scam_database : scam_database :=
  mkDb
    [py "03-1234-5678"; py "0120-999-999"; py "050-1111-2222"; py "090-1234-5678"]
    [py "050"; py "070"; py "+675"; py "+234"; py "+1-876"]
    [ RSeq RBol (literal (py "0120"));
      RSeq RBol (literal (py "0570"));
      RSeq RBol (literal (py "0990"));
      RSeq RBol (RSeq (RChar 43%N) (RStar RAny)) ]
    [py "110"; py "119"; py "118"]
    [].

(** [api_key] is [DEFAULT_API_KEY], read from the environment. *)
Definition initial_session (api_key : str) : session :=
  mkSession [] initial_scam_database api_key false.

(** ** Instances used to run the model on concrete inputs *)

(** A client whose model answers every prompt with [reply]. *)
Definition canned_genai (reply : str) : genai :=
  mkGenai true (fun _ => Ok tt) (fun _ => Ok tt)
          (fun _ => Ok (mkResponse (Ok reply))).

(** [json.loads] restricted to three documents; every other text is
    refused, as [json.loads] refuses a text that is not JSON. *)
Definition loads_sample (t : str) : pyres json :=
  if str_eqb t (py "{}") then Ok (JDict [])
  else if str_eqb t (py "[1]") then Ok (JList [JInt 1])
  else if str_eqb t (py "null") then Ok JNull
  else Raise (mkExn "JSONDecodeError" true).

(** [str(v)] for the values whose text needs no quoting rules. *)
Definition format_sample (v : json) : str :=
  match v with
  | JNull => py "None"
  | JBool true => py "True"
  | JBool false => py "False"
  | JInt z => if (z <? 0)%Z then 45%N :: str_of_int (Z.to_N (- z))
              else str_of_int (Z.to_N z)
  | JFloat _ t => t
  | JStr s => s
  | JList _ => py "[...]"
  | JDict _ => py "{...}"
  end.

(** * The application *)

Section Checker.

(** [json.loads] and the formatting of a value inside an f-string belong to
    the Python library; [G] is the Gemini client. *)
Variable json_loads : str -> pyres json.
Variable format_value : json -> str.
Variable G : genai.

(** ** The Gemini adapters *)

(** [st.error] only draws on the page. *)
Definition setup_gemini (st : session) : pyres bool :=
  if match gemini_api_key st with [] => false | _ => true end
     && GEMINI_AVAILABLE G
  then
    try_except_Exception
      (_ <- configure G (gemini_api_key st) ;; Ok true)
      (fun _ => Ok false)
  else Ok false.

Definition build_number_prompt (number : str) (basic_result : result)
  (caller_type_info : caller_info) : prompt :=
  NumberPrompt
    (mkNumberPrompt number (normalized basic_result)
       (nth_or_unknown 0 (details basic_result))
       (nth_or_unknown 1 (details basic_result))
       (type_ caller_type_info) (category caller_type_info)
       (risk_label (risk_level basic_result))).

Definition analyze_with_gemini (st : session) (number : str)
  (basic_result : result) : pyres json :=
  ready <- setup_gemini st ;;
  if negb ready then Ok JNull
  else
    try_except_Exception
      (_ <- GenerativeModel G "gemini-pro" ;;
       caller_type_info <-
         match caller_type basic_result with
         | Some c => Ok c
         | None => Raise AttributeError
         end ;;
       response <-
         generate_content G
           (build_number_prompt number basic_result caller_type_info) ;;
       try_except
         (t <- text response ;;
          ai_result <- json_loads t ;;
          Ok ai_result)
         (fun _ =>
            t <- text response ;;
            Ok (number_fallback (firstn 200 t))))
      (fun _ => Ok JNull).

Definition analyze_conversation_with_gemini (st : session)
  (conversation_text : str) : pyres json :=
  ready <- setup_gemini st ;;
  if negb ready then Ok JNull
  else
    try_except_Exception
      (_ <- GenerativeModel G "gemini-pro" ;;
       response <- generate_content G (ConversationPrompt conversation_text) ;;
       try_except
         (t <- text response ;; json_loads t)
         (fun _ =>
            t <- text response ;;
            Ok (conversation_fallback (firstn 200 t))))
      (fun _ => Ok JNull).

(** ** [analyze_phone_number] *)

Definition new_result (number normalized now : str) : result :=
  mkResult number normalized Safe [] [] [] now JNull None.

(** Lines 324 to 328. *)
Definition emergency_result (r : result) : result :=
  let r := set_risk_level Emergency r in
  append_detail (py "✅ 緊急通報番号です") r.

(** Lines 330 to 335. *)
Definition known_scam_check (db : scam_database) (number : str) (r : result)
  : result :=
  if str_in number (known_scam_numbers db) then
    let r := set_risk_level Danger r in
    let r := append_warning (py "🚨 既知の詐欺電話番号です！") r in
    let r := append_recommendation (py "❌ 絶対に応答しないでください") r in
    append_recommendation (py "📞 着信拒否設定を推奨") r
  else r.

(** The body of the loop of lines 338 to 342. *)
Definition reported_case_check (number : str) (r : result) (c : case) : result :=
  if str_eqb (case_number c) number then
    let r := set_risk_level Danger r in
    let r := append_warning
               (py "⚠️ " ++ str_of_int (case_reports c) ++ py "件の通報あり") r in
    append_detail (py "通報内容: " ++ case_description c) r
  else r.

(** The body of the loop of lines 345 to 350. *)
Definition prefix_check (normalized : str) (r : result) (prefix : str) : result :=
  if startswith normalized prefix then
    let r := if risk_eqb (risk_level r) Safe then set_risk_level Caution r
             else r in
    let r := append_warning (py "⚠️ 疑わしいプレフィックス: " ++ prefix) r in
    append_recommendation (py "慎重に対応してください") r
  else r.

(** The body of the loop of lines 353 to 357. *)
Definition pattern_check (number : str) (r : result) (pattern : regex) : result :=
  if re_match pattern number then
    let r := if risk_eqb (risk_level r) Safe then set_risk_level Caution r
             else r in
    append_warning (py "⚠️ 警戒が必要なパターンです") r
  else r.

(** Lines 360 to 364. *)
Definition international_check (number normalized : str) (r : result) : result :=
  if startswith number (py "+") || startswith normalized (py "010") then
    let r := append_warning (py "🌍 国際電話です") r in
    let r := append_recommendation (py "身に覚えがない場合は応答しない") r in
    if risk_eqb (risk_level r) Safe then set_risk_level Caution r else r
  else r.

(** Lines 367 and 368. *)
Definition add_details (number normalized : str) (r : result) : result :=
  let r := append_detail
             (py "📱 番号タイプ: " ++ identify_number_type normalized) r in
  append_detail (py "📍 地域: " ++ identify_area number) r.

(** Lines 371 to 373. *)
Definition safe_recommendations (r : result) : result :=
  if risk_eqb (risk_level r) Safe then
    let r := append_recommendation (py "✅ 特に問題は検出されませんでした") r in
    append_recommendation (py "💡 不審な要求には注意してください") r
  else r.

(** Lines 376 to 383. *)
Definition ai_check (st : session) (number : str) (use_ai : bool) (r : result)
  : pyres result :=
  if use_ai && ai_enabled st then
    ai_result <- analyze_with_gemini st number r ;;
    if truthy ai_result then
      let r := set_ai_analysis ai_result r in
      assessment <- json_get ai_result (py "ai_risk_assessment") JNull ;;
      if json_eq_str assessment (py "危険")
         && negb (risk_eqb (risk_level r) Danger)
      then
        let r := set_risk_level Danger r in
        score <- json_get ai_result (py "confidence_score") (JInt 0) ;;
        Ok (append_warning
              (py "🤖 AI判定: 危険 (信頼度 " ++ format_value score ++ py "%)") r)
      else Ok r
    else Ok r
  else Ok r.

(** The rules between the emergency test and the Gemini step. *)
Definition rule_chain (db : scam_database) (number normalized : str)
  (r : result) : result :=
  let r := known_scam_check db number r in
  let r := fold_left (reported_case_check number) (reported_cases db) r in
  let r := fold_left (prefix_check normalized) (suspicious_prefixes db) r in
  let r := fold_left (pattern_check number) (warning_patterns db) r in
  let r := international_check number normalized r in
  let r := add_details number normalized r in
  safe_recommendations r.

(** [now] is [datetime.now().strftime("%Y-%m-%d %H:%M:%S")].  The value is
    what the call returns or raises together with the session state it
    leaves. *)
Definition analyze_phone_number (st : session) (now : str) (number : str)
  (use_ai : bool) : pyres result * session :=
  let normalized := normalize number in
  let r := new_result number normalized now in
  let r := set_caller_type (identify_caller_type number normalized) r in
  if str_in normalized emergency_numbers then (Ok (emergency_result r), st)
  else
    let r := rule_chain (scam_db st) number normalized r in
    match ai_check st number use_ai r with
    | Ok r => (Ok r, append_history r st)
    | Raise e => (Raise e, st)
    end.

(** ** The report form (lines 707 to 725) *)

(** The index of the case that the search loop leaves in [existing]. *)
Fixpoint find_existing (report_number : str) (cases : list case) : option nat :=
  match cases with
  | [] => None
  | c :: rest =>
    if str_eqb (case_number c) report_number then Some 0
    else option_map S (find_existing report_number rest)
  end.

(** Lines 722 and 723, on the case itself. *)
Definition add_to_case (report_detail : str) (existing : case) : case :=
  let reports := (case_reports existing + 1)%N in
  mkCase (case_number existing)
         (case_description existing
            ++ 10%N :: py "[追加通報 " ++ str_of_int reports ++ py "] "
            ++ report_detail)
         (case_timestamp existing)
         reports.

(** [existing] is the very object stored in the list: changing it changes
    the list at its index. *)
Fixpoint update_case (i : nat) (f : case -> case) (cases : list case)
  : list case :=
  match cases, i with
  | [], _ => []
  | c :: rest, O => f c :: rest
  | c :: rest, S j => c :: update_case j f rest
  end.

Definition report_form (st : session) (now : str) (submitted : bool)
  (report_number report_detail report_category : str) : session :=
  if submitted && match report_number with [] => false | _ => true end then
    let report :=
      mkCase report_number
             (py "[" ++ report_category ++ py "] " ++ report_detail)
             now 1 in
    let cases := reported_cases (scam_db st) in
    match find_existing report_number cases with
    | Some i =>
      set_scam_db
        (set_reported_cases (update_case i (add_to_case report_detail) cases)
                            (scam_db st)) st
    | None =>
      set_scam_db (set_reported_cases (cases ++ [report]) (scam_db st)) st
    end
  else st.

(** The button of the form pressed with the given fields. *)
Definition submit_report (st : session) (now report_number report_detail
  report_category : str) : session :=
  report_form st now true report_number report_detail report_category.

(** ** Notions used to state the properties *)

(** The result as it stands when the Gemini step begins. *)
Definition basic_result (st : session) (now number : str) : result :=
  let normalized := normalize number in
  rule_chain (scam_db st) number normalized
    (set_caller_type (identify_caller_type number normalized)
       (new_result number normalized now)).

Definition is_dict (v : json) : bool :=
  match v with
  | JDict _ => true
  | _ => false
  end.

(** The Gemini step reads [v] without raising: [v] is skipped by [if v:] or
    has the method [get]. *)
Definition usable (v : json) : bool := negb (truthy v) || is_dict v.

(** When the Gemini step runs, the answer it obtains is usable. *)
Definition gemini_answer_usable (st : session) (now number : str)
  (use_ai : bool) : Prop :=
  use_ai && ai_enabled st = true ->
  exists v, analyze_with_gemini st number (basic_result st now number) = Ok v
            /\ usable v = true.

(** The rules of [rule_chain] in the order in which they run, every
    iteration of a loop being one rule. *)
Definition rule_steps (db : scam_database) (number normalized : str)
  : list (result -> result) :=
  [known_scam_check db number]
  ++ map (fun c r => reported_case_check number r c) (reported_cases db)
  ++ map (fun p r => prefix_check normalized r p) (suspicious_prefixes db)
  ++ map (fun p r => pattern_check number r p) (warning_patterns db)
  ++ [international_check number normalized;
      add_details number normalized;
      safe_recommendations].

Definition run_steps (steps : list (result -> result)) (r : result) : result :=
  fold_left (fun r step => step r) steps r.

(** The result before the first rule and after each rule. *)
Fixpoint trace (steps : list (result -> result)) (r : result) : list result :=
  r :: match steps with
       | [] => []
       | step :: rest => trace rest (step r)
       end.

(** A rule that keeps or raises the level among safe, caution and danger
    and keeps the warnings already given. *)
Definition escalates (step : result -> result) : Prop :=
  forall r, risk_level r <> Emergency ->
    risk_level (step r) <> Emergency
    /\ risk_le (risk_level r) (risk_level (step r))
    /\ (exists ws, warnings (step r) = warnings r ++ ws).

(** What a check without the Gemini step shows in a fresh session: the
    level, the caller type and the warnings. *)
Definition outcome (key now number : str)
  : option (risk * option str * list str) :=
  match fst (analyze_phone_number (initial_session key) now number false) with
  | Ok r => Some (risk_level r, option_map type_ (caller_type r), warnings r)
  | Raise _ => None
  end.

End Checker.

(** A digit or the plus sign. *)
Definition digit_or_plus (c : char) : bool := isdigit_ascii c || (c =? 43)%N.

(** ** The other handlers of the page *)

Definition set_known_scam_numbers (l : list str) (db : scam_database)
  : scam_database :=
  mkDb l (suspicious_prefixes db) (warning_patterns db) (safe_prefixes db)
       (reported_cases db).

Definition set_check_history (h : list result) (st : session) : session :=
  mkSession h (scam_db st) (gemini_api_key st) (ai_enabled st).

(** The form of the database page (lines 751 to 757); [submitted] is the
    value of its button. *)
Definition add_scam_number (st : session) (submitted : bool) (new_number : str)
  : session :=
  if submitted then
    if match new_number with [] => false | _ => true end
       && negb (str_in new_number (known_scam_numbers (scam_db st)))
    then
      set_scam_db
        (set_known_scam_numbers
           (known_scam_numbers (scam_db st) ++ [new_number]) (scam_db st)) st
    else st
  else st.

(** The four metrics of [show_stats] (lines 505 to 508). *)
Record stats := mkStats {
  total : nat;
  dangerous : nat;
  warning : nat;
  safe : nat
}.

(** [sum(1 for r in history if r['risk_level'] == label)] *)
Definition count_level (l : risk) (history : list result) : nat :=
  List.length (filter (fun r => risk_eqb (risk_level r) l) history).

Definition show_stats (st : session) : stats :=
  mkStats (List.length (check_history st))
          (count_level Danger (check_history st))
          (count_level Caution (check_history st))
          (count_level Safe (check_history st)).

(** [l[-n:]] for a positive [n]. *)
Definition last_n {A : Type} (n : nat) (l : list A) : list A :=
  skipn (List.length l - n) l.

(** The records listed by the statistics page, in the order of the page
    (line 680): [reversed(check_history[-10:])]. *)
Definition history_page (st : session) : list result :=
  rev (last_n 10 (check_history st)).

(** The cases listed by the report page (line 733):
    [reversed(reported_cases[-5:])]. *)
Definition recent_reports (st : session) : list case :=
  rev (last_n 5 (reported_cases (scam_db st))).

(** The button of line 687. *)
Definition clear_history (st : session) : session := set_check_history [] st.

(** The sum of the counts of the reported cases. *)
Definition total_reports (cases : list case) : N :=
  fold_right (fun c n => (case_reports c + n)%N) 0%N cases.

(** Whether some case carries the number. *)
Definition reported (number : str) (cases : list case) : bool :=
  existsb (fun c => str_eqb (case_number c) number) cases.

(** The test of the international rule (line 360). *)
Definition international (number normalized : str) : bool :=
  startswith number (py "+") || startswith normalized (py "010").

Section Pages.

Variable json_loads : str -> pyres json.
Variable format_value : json -> str.

(** The check button (lines 586 to 589): an empty field does nothing, and
    [use_ai] is the flag of the session.  The session is given as the call
    leaves it, whether it returns or raises. *)
Definition check_button (G : genai) (st : session) (now phone_input : str)
  : session :=
  match phone_input with
  | [] => st
  | _ :: _ =>
    snd (analyze_phone_number json_loads format_value G st now phone_input
           (ai_enabled st))
  end.

(** What the user does on the pages; [CheckNumber] carries the behaviour of
    the Gemini client during that check. *)
Inductive action : Type :=
| CheckNumber (G : genai) (now phone_input : str)
| SubmitReport (now report_number report_detail report_category : str)
| AddScamNumber (new_number : str)
| ClearHistory.

Definition handle (st : session) (a : action) : session :=
  match a with
  | CheckNumber G now phone_input => check_button G st now phone_input
  | SubmitReport now n d c => submit_report st now n d c
  | AddScamNumber n => add_scam_number st true n
  | ClearHistory => clear_history st
  end.

Definition run (actions : list action) (st : session) : session :=
  fold_left handle actions st.

End Pages.

(** What the sessions reached from a fresh one satisfy. *)
Definition well_kept (st : session) : Prop :=
  Forall (fun r => risk_level r <> Emergency) (check_history st)
  /\ NoDup (known_scam_numbers (scam_db st))
  /\ NoDup (map case_number (reported_cases (scam_db st)))
  /\ Forall (fun c => (1 <= case_reports c)%N /\ case_number c <> [])
            (reported_cases (scam_db st))
  /\ suspicious_prefixes (scam_db st) = suspicious_prefixes initial_scam_database
  /\ warning_patterns (scam_db st) = warning_patterns initial_scam_database.

(** [r'] is [r] with warnings, details and recommendations added at the
    end and possibly another level and Gemini analysis. *)
Definition extends (r r' : result) : Prop :=
  original r' = original r
  /\ normalized r' = normalized r
  /\ timestamp r' = timestamp r
  /\ caller_type r' = caller_type r
  /\ (exists ws, warnings r' = warnings r ++ ws)
  /\ (exists ds, details r' = details r ++ ds)
  /\ (exists rs, recommendations r' = recommendations r ++ rs).

(** A result of the rules before the closing recommendations: it is safe
    exactly when it has no warning, and then it has no recommendation. *)
Definition quiet (r : result) : Prop :=
  risk_level r <> Emergency
  /\ (risk_level r = Safe -> warnings r = [] /\ recommendations r = [])
  /\ (warnings r = [] -> risk_level r = Safe).

(** The client raises nothing but exceptions derived from [Exception]. *)
Definition raises_only_Exception (G : genai) : Prop :=
  (forall key e, configure G key = Raise e -> exn_is_Exception e = true)
  /\ (forall name e, GenerativeModel G name = Raise e ->
                     exn_is_Exception e = true)
  /\ (forall p e, generate_content G p = Raise e -> exn_is_Exception e = true)
  /\ (forall p answer e, generate_content G p = Ok answer ->
                         text answer = Raise e -> exn_is_Exception e = true).

(** A client whose requests fail. *)
Definition offline_genai : genai :=
  mkGenai true (fun _ => Ok tt) (fun _ => Ok tt)
          (fun _ => Raise (mkExn "ConnectionError" true)).

(** The text of an answer that judges the number dangerous, and a
    [json.loads] restricted to it. *)
Definition verdict_text : str :=
  py "{" ++ 34%N :: py "ai_risk_assessment" ++ 34%N :: py ": "
  ++ 34%N :: py "危険" ++ 34%N :: py ", "
  ++ 34%N :: py "confidence_score" ++ 34%N :: py ": 90}".

Definition loads_verdict (t : str) : pyres json :=
  if str_eqb t verdict_text then
    Ok (JDict [ (py "ai_risk_assessment", JStr (py "危険"));
                (py "confidence_score", JInt 90) ])
  else Raise (mkExn "JSONDecodeError" true).

(** * Properties *)

(** ** Strings *)

Lemma str_eqb_spec (a b : str) : reflect (a = b) (str_eqb a b).
Proof.
  revert b; induction a as [|x a IH]; intros [|y b]; simpl;
    try (constructor; congruence).
  destruct (N.eqb_spec x y) as [->|Hxy]; simpl.
  - destruct (IH b) as [->|Hab]; constructor; congruence.
  - constructor; congruence.
Qed.

Lemma str_eqb_refl (a : str) : str_eqb a a = true.
Proof. destruct (str_eqb_spec a a); congruence. Qed.

Lemma str_eqb_eq (a b : str) : str_eqb a b = true <-> a = b.
Proof. destruct (str_eqb_spec a b); split; congruence. Qed.

Lemma str_eqb_neq (a b : str) : str_eqb a b = false <-> a <> b.
Proof. destruct (str_eqb_spec a b); split; congruence. Qed.

Lemma str_in_In (x : str) (l : list str) : str_in x l = true <-> In x l.
Proof.
  unfold str_in; rewrite existsb_exists; split.
  - intros (y & Hy & E); apply str_eqb_eq in E; subst; exact Hy.
  - intros H; exists x; split; [exact H | apply str_eqb_refl].
Qed.

Lemma str_in_not_In (x : str) (l : list str) : str_in x l = false <-> ~ In x l.
Proof.
  rewrite <- str_in_In; destruct (str_in x l); split; congruence.
Qed.

(** ** Normalization *)

Lemma strip_separators_filter (number : str) :
  strip_separators number = filter (fun c => negb (is_separator c)) number.
Proof.
  induction number as [|c rest IH]; simpl; [reflexivity|].
  destruct (is_separator c); simpl; congruence.
Qed.

Lemma strip_separators_clean (number : str) :
  Forall (fun c => is_separator c = false) (strip_separators number).
Proof.
  induction number as [|c rest IH]; simpl; [constructor|].
  destruct (is_separator c) eqn:E; [exact IH | constructor; assumption].
Qed.

Lemma strip_separators_fixed (s : str) :
  Forall (fun c => is_separator c = false) s -> strip_separators s = s.
Proof.
  induction 1 as [|c rest Hc _ IH]; simpl; [reflexivity|].
  rewrite Hc, IH; reflexivity.
Qed.

Lemma digit_or_plus_not_separator (c : char) :
  digit_or_plus c = true -> is_separator c = false.
Proof.
  unfold digit_or_plus, is_separator, isdigit_ascii, isspace; intros H.
  repeat match goal with
         | H : _ || _ = true |- _ => apply orb_true_iff in H; destruct H
         | H : _ && _ = true |- _ => apply andb_true_iff in H; destruct H
         | H : (_ <=? _)%N = true |- _ => apply N.leb_le in H
         | H : (_ =? _)%N = true |- _ => apply N.eqb_eq in H
         end;
  repeat match goal with
         | |- _ || _ = false => apply orb_false_iff; split
         | |- _ && _ = false => apply andb_false_iff
         end;
  try (apply N.eqb_neq; lia);
  try (left; apply N.leb_gt; lia);
  try (right; apply N.leb_gt; lia).
Qed.

(** C8. Normalization is idempotent: normalizing the normalized form of any
    input string gives that normalized form again. *)
Theorem normalize_idempotent (number : str) :
  normalize (normalize number) = normalize number.
Proof.
  unfold normalize.
  apply strip_separators_fixed, strip_separators_clean.
Qed.

(** C6, as the source has it.  For every input string the normalized form
    is the input with its hyphens, white space and parentheses removed: none
    of these characters remains and every other character is kept in
    place.  It consists of digits and plus signs only exactly when the input
    holds nothing but digits, plus signs and separators. *)
Theorem normalize_removes_separators (number : str) :
  normalize number = filter (fun c => negb (is_separator c)) number
  /\ Forall (fun c => is_separator c = false) (normalize number)
  /\ (forallb digit_or_plus (normalize number) = true <->
      forallb (fun c => digit_or_plus c || is_separator c) number = true).
Proof.
  unfold normalize; split; [apply strip_separators_filter|].
  split; [apply strip_separators_clean|].
  induction number as [|c rest IH]; simpl; [tauto|].
  destruct (is_separator c) eqn:Hs; simpl.
  - rewrite orb_true_r; simpl; exact IH.
  - rewrite orb_false_r.
    destruct (digit_or_plus c); simpl; [exact IH | split; discriminate].
Qed.

(** C6, as stated, fails: the letters of an input are kept, so the
    normalized form of ["0120-ABC"] is not made of digits and plus signs. *)
Lemma normalize_keeps_letters :
  normalize (py "0120-ABC") = py "0120ABC"
  /\ forallb digit_or_plus (normalize (py "0120-ABC")) = false.
Proof. split; vm_compute; reflexivity. Qed.

(** ** The order of the levels *)

Lemma risk_eqb_eq (a b : risk) : risk_eqb a b = true <-> a = b.
Proof. destruct a, b; simpl; split; congruence. Qed.

Lemma risk_le_refl (a : risk) : risk_le a a.
Proof. unfold risk_le; lia. Qed.

Lemma risk_le_trans (a b c : risk) : risk_le a b -> risk_le b c -> risk_le a c.
Proof. unfold risk_le; lia. Qed.

Lemma risk_le_Danger (a : risk) : a <> Emergency -> risk_le a Danger.
Proof. destruct a; unfold risk_le; simpl; intros; try lia; congruence. Qed.

Lemma Danger_top (a : risk) : a <> Emergency -> risk_le Danger a -> a = Danger.
Proof. destruct a; unfold risk_le; simpl; intros; try lia; congruence. Qed.

Lemma not_Safe_above (a b : risk) : a <> Safe -> risk_le a b -> b <> Safe.
Proof. destruct a, b; unfold risk_le; simpl; intros; try lia; congruence. Qed.

Create HintDb risk.
#[local] Hint Resolve risk_le_refl risk_le_Danger : risk.

(** ** The rules one by one *)

(** From level [a] a rule leads to [a], to caution when [a] is safe, or to
    danger, and it only appends warnings. *)
Lemma escalates_intro (step : result -> result) :
  (forall r,
      (risk_level (step r) = risk_level r
       \/ (risk_level r = Safe /\ risk_level (step r) = Caution)
       \/ risk_level (step r) = Danger)
      /\ exists ws, warnings (step r) = warnings r ++ ws) ->
  escalates step.
Proof.
  intros H r Hr; destruct (H r) as [Hl Hw]; split; [|split; [|exact Hw]].
  - destruct Hl as [E | [[_ E] | E]]; rewrite E; congruence.
  - destruct Hl as [E | [[E1 E2] | E]]; rewrite ?E, ?E1, ?E2; auto with risk.
    unfold risk_le; simpl; lia.
Qed.

Ltac step_cases :=
  apply escalates_intro; intros r; cbv beta delta
    [known_scam_check reported_case_check prefix_check pattern_check
     international_check add_details safe_recommendations];
  repeat (simpl;
          match goal with
          | |- context [if ?b then _ else _] => destruct b eqn:?
          end);
  simpl;
  (split;
   [ auto;
     try match goal with
         | H : risk_eqb _ Safe = true |- _ => apply risk_eqb_eq in H; auto
         end
   | rewrite <- ?app_assoc; eauto using app_nil_r;
     try (exists []; symmetry; apply app_nil_r) ]).

Lemma known_scam_check_escalates db number :
  escalates (known_scam_check db number).
Proof. step_cases. Qed.

Lemma reported_case_check_escalates number c :
  escalates (fun r => reported_case_check number r c).
Proof. step_cases. Qed.

Lemma prefix_check_escalates normalized prefix :
  escalates (fun r => prefix_check normalized r prefix).
Proof. step_cases. Qed.

Lemma pattern_check_escalates number pattern :
  escalates (fun r => pattern_check number r pattern).
Proof. step_cases. Qed.

Lemma international_check_escalates number normalized :
  escalates (international_check number normalized).
Proof. step_cases. Qed.

Lemma add_details_escalates number normalized :
  escalates (add_details number normalized).
Proof. step_cases. Qed.

Lemma safe_recommendations_escalates : escalates safe_recommendations.
Proof. step_cases. Qed.

(** ** The chain of rules *)

Lemma rule_steps_escalate db number normalized :
  Forall escalates (rule_steps db number normalized).
Proof.
  unfold rule_steps.
  repeat first
    [ apply Forall_app; split
    | apply Forall_cons
    | apply Forall_nil
    | apply Forall_map, Forall_forall; intros ? _ ];
  auto using known_scam_check_escalates, reported_case_check_escalates,
    prefix_check_escalates, pattern_check_escalates,
    international_check_escalates, add_details_escalates,
    safe_recommendations_escalates.
Qed.

Lemma fold_left_as_steps {B : Type} (f : result -> B -> result) (l : list B)
  (rest : list (result -> result)) (r : result) :
  run_steps (map (fun b r => f r b) l ++ rest) r
  = run_steps rest (fold_left f l r).
Proof.
  unfold run_steps; revert r; induction l as [|b l IH]; intros r; simpl;
    [reflexivity | apply IH].
Qed.

Lemma rule_chain_run_steps db number normalized r :
  rule_chain db number normalized r
  = run_steps (rule_steps db number normalized) r.
Proof.
  unfold rule_steps, rule_chain.
  change (run_steps ([known_scam_check db number] ++ ?l) r)
    with (run_steps l (known_scam_check db number r)).
  rewrite !fold_left_as_steps; reflexivity.
Qed.

Lemma trace_last steps r d : last (trace steps r) d = run_steps steps r.
Proof.
  revert r d; induction steps as [|s steps IH]; intros r d; [reflexivity|].
  change (trace (s :: steps) r) with (r :: trace steps (s r)).
  change (run_steps (s :: steps) r) with (run_steps steps (s r)).
  rewrite <- (IH (s r) d).
  destruct steps; reflexivity.
Qed.

Lemma trace_above steps r :
  Forall escalates steps -> risk_level r <> Emergency ->
  Forall (fun x => risk_level x <> Emergency
                   /\ risk_le (risk_level r) (risk_level x)
                   /\ exists ws, warnings x = warnings r ++ ws)
         (trace steps r).
Proof.
  intros Hs; revert r; induction Hs as [|s steps Hstep _ IH]; intros r Hr.
  - repeat constructor; auto with risk.
    exists []; symmetry; apply app_nil_r.
  - change (trace (s :: steps) r) with (r :: trace steps (s r)).
    destruct (Hstep r Hr) as (Hne & Hle & ws & Hws).
    constructor.
    + repeat split; auto with risk. exists []; symmetry; apply app_nil_r.
    + eapply Forall_impl; [|apply (IH (s r) Hne)].
      intros x (Hx & Hlx & ws' & Hws'); repeat split; [exact Hx | |].
      * eapply risk_le_trans; eassumption.
      * exists (ws ++ ws'); rewrite Hws', Hws, app_assoc; reflexivity.
Qed.

Lemma trace_sorted steps r :
  Forall escalates steps -> risk_level r <> Emergency ->
  StronglySorted risk_le (map risk_level (trace steps r)).
Proof.
  intros Hs; revert r; induction Hs as [|s steps Hstep Hs IH]; intros r Hr.
  - repeat constructor.
  - change (trace (s :: steps) r) with (r :: trace steps (s r)).
    destruct (Hstep r Hr) as (Hne & Hle & _).
    simpl; constructor; [apply IH; exact Hne|].
    apply Forall_map.
    eapply Forall_impl; [|apply (trace_above steps (s r) Hs Hne)].
    intros x (_ & Hx & _); eapply risk_le_trans; eassumption.
Qed.

Lemma run_steps_escalates steps :
  Forall escalates steps -> escalates (run_steps steps).
Proof.
  intros Hs r Hr.
  pose proof (trace_above steps r Hs Hr) as H.
  rewrite Forall_forall in H; apply H.
  rewrite <- (trace_last steps r r).
  destruct steps as [|s steps]; [left; reflexivity|].
  change (trace (s :: steps) r) with (r :: trace steps (s r)).
  right.
  assert (Hne : trace steps (s r) <> []) by (destruct steps; discriminate).
  destruct (trace steps (s r)) as [|x l] eqn:E; [congruence|].
  change (last (r :: x :: l) r) with (last (x :: l) r).
  destruct (exists_last (l:=x :: l)) as (l' & y & El); [discriminate|].
  rewrite El, last_last; apply in_or_app; right; left; reflexivity.
Qed.

Lemma escalates_compose (f g : result -> result) :
  escalates f -> escalates g -> escalates (fun r => g (f r)).
Proof.
  intros Hf Hg r Hr.
  destruct (Hf r Hr) as (H1 & H2 & ws & H3).
  destruct (Hg (f r) H1) as (H4 & H5 & ws' & H6).
  repeat split; [exact H4 | eapply risk_le_trans; eassumption |].
  exists (ws ++ ws'); rewrite H6, H3, app_assoc; reflexivity.
Qed.

Lemma fold_left_escalates {B : Type} (f : result -> B -> result) (l : list B) :
  (forall b, escalates (fun r => f r b)) ->
  escalates (fun r => fold_left f l r).
Proof.
  intros Hf; induction l as [|b l IH]; simpl.
  - intros r Hr; repeat split; auto with risk.
    exists []; symmetry; apply app_nil_r.
  - apply (escalates_compose _ _ (Hf b) IH).
Qed.

Lemma rule_chain_escalates db number normalized :
  escalates (rule_chain db number normalized).
Proof.
  intros r Hr; rewrite rule_chain_run_steps.
  apply run_steps_escalates; [apply rule_steps_escalate | exact Hr].
Qed.

Lemma rule_chain_after_prefixes db number normalized r :
  rule_chain db number normalized r
  = run_steps
      (map (fun p r => pattern_check number r p) (warning_patterns db)
       ++ [international_check number normalized;
           add_details number normalized; safe_recommendations])
      (fold_left (prefix_check normalized) (suspicious_prefixes db)
         (fold_left (reported_case_check number) (reported_cases db)
            (known_scam_check db number r))).
Proof. unfold rule_chain; rewrite fold_left_as_steps; reflexivity. Qed.

Lemma later_steps_escalate db number normalized :
  escalates
    (run_steps
       (map (fun p r => pattern_check number r p) (warning_patterns db)
        ++ [international_check number normalized;
            add_details number normalized; safe_recommendations])).
Proof.
  apply run_steps_escalates.
  pose proof (rule_steps_escalate db number normalized) as H.
  unfold rule_steps in H.
  repeat (apply Forall_app in H; destruct H as [_ H]).
  apply Forall_app; split; [|exact H].
  apply Forall_map, Forall_forall; intros ? _; apply pattern_check_escalates.
Qed.

(** A matching prefix leaves the level above safe. *)
Lemma prefix_loop_not_safe normalized prefixes r :
  (exists prefix, In prefix prefixes /\ startswith normalized prefix = true) ->
  risk_level r <> Emergency ->
  risk_level (fold_left (prefix_check normalized) prefixes r) <> Safe.
Proof.
  revert r; induction prefixes as [|p l IH]; intros r (q & Hq & Hm) Hr.
  - destruct Hq.
  - simpl.
    destruct (prefix_check_escalates normalized p r Hr) as (Hne & Hle & _).
    destruct Hq as [-> | Hq].
    + apply not_Safe_above with (a := risk_level (prefix_check normalized r q)).
      * unfold prefix_check; rewrite Hm; simpl.
        destruct (risk_eqb (risk_level r) Safe) eqn:E; simpl; [discriminate|].
        intros Hs; rewrite Hs in E; discriminate.
      * apply (fold_left_escalates (prefix_check normalized) l
                 (prefix_check_escalates normalized) _ Hne).
    + apply IH; [exists q; split; assumption | exact Hne].
Qed.

Section Properties.

Variable json_loads : str -> pyres json.
Variable format_value : json -> str.
Variable G : genai.

Local Abbreviation analyze := (analyze_phone_number json_loads format_value G).
Local Abbreviation gemini := (analyze_with_gemini json_loads G).
Local Abbreviation gemini_step := (ai_check json_loads format_value G).
Local Abbreviation answer_usable := (gemini_answer_usable json_loads G).

(** ** The Gemini step *)

Lemma ai_check_escalates st number use_ai r r' :
  gemini_step st number use_ai r = Ok r' ->
  (risk_level r' = risk_level r \/ risk_level r' = Danger)
  /\ exists ws, warnings r' = warnings r ++ ws.
Proof.
  unfold ai_check.
  destruct (use_ai && ai_enabled st); simpl.
  2: { intros [= <-]; split; [left; reflexivity|].
       exists []; symmetry; apply app_nil_r. }
  destruct (gemini st number r) as [v|e]; simpl; [|discriminate].
  destruct (truthy v).
  2: { intros [= <-]; split; [left; reflexivity|].
       exists []; symmetry; apply app_nil_r. }
  destruct v; simpl; try discriminate.
  destruct (lookup (py "ai_risk_assessment") items) as [a|]; simpl.
  - destruct (json_eq_str a (py "危険") && negb (risk_eqb (risk_level r) Danger)).
    + destruct (lookup (py "confidence_score") items); simpl;
        intros [= <-]; simpl; eauto.
    + intros [= <-]; simpl; split; [left; reflexivity|].
      exists []; symmetry; apply app_nil_r.
  - intros [= <-]; simpl; split; [left; reflexivity|].
    exists []; symmetry; apply app_nil_r.
Qed.

Lemma ai_check_returns st number use_ai r :
  (use_ai && ai_enabled st = true ->
   exists v, gemini st number r = Ok v /\ usable v = true) ->
  exists r', gemini_step st number use_ai r = Ok r'.
Proof.
  unfold ai_check.
  destruct (use_ai && ai_enabled st); simpl; [|eauto].
  intros H; destruct (H eq_refl) as (v & -> & Hv); simpl.
  unfold usable in Hv.
  destruct (truthy v) eqn:Ht; [|eauto].
  destruct v; simpl in Hv; try discriminate.
  simpl.
  destruct (lookup (py "ai_risk_assessment") items) as [a|]; simpl.
  - destruct (json_eq_str a (py "危険") && negb (risk_eqb (risk_level r) Danger));
      [|eauto].
    destruct (lookup (py "confidence_score") items); simpl; eauto.
  - eauto.
Qed.

(** The step raises on an answer that is not usable. *)
Lemma ai_check_raises st number r v :
  ai_enabled st = true -> gemini st number r = Ok v -> usable v = false ->
  gemini_step st number true r = Raise AttributeError.
Proof.
  intros Hen Hv Hu; unfold ai_check; rewrite Hen, Hv; simpl.
  unfold usable in Hu; apply orb_false_iff in Hu as [Ht Hd].
  apply negb_false_iff in Ht; rewrite Ht.
  destruct v; simpl in *; try reflexivity; discriminate.
Qed.

(** The step returns exactly when the answer it obtains is usable. *)
Lemma ai_check_returns_iff st number use_ai r :
  (exists r', gemini_step st number use_ai r = Ok r') <->
  (use_ai && ai_enabled st = true ->
   exists v, gemini st number r = Ok v /\ usable v = true).
Proof.
  split; [|apply ai_check_returns].
  intros [r' H] Hon; unfold ai_check in H; rewrite Hon in H.
  destruct (gemini st number r) as [v|e]; simpl in H; [|discriminate].
  exists v; split; [reflexivity|].
  unfold usable; destruct (truthy v); [|reflexivity].
  destruct v; simpl in *; try discriminate; reflexivity.
Qed.

(** ** The two branches of [analyze_phone_number] *)

Lemma analyze_emergency st now number use_ai :
  str_in (normalize number) emergency_numbers = true ->
  analyze st now number use_ai
  = (Ok (emergency_result
           (set_caller_type (identify_caller_type number (normalize number))
              (new_result number (normalize number) now))), st).
Proof. intros H; unfold analyze_phone_number; rewrite H; reflexivity. Qed.

Lemma analyze_other st now number use_ai :
  str_in (normalize number) emergency_numbers = false ->
  analyze st now number use_ai
  = match gemini_step st number use_ai (basic_result st now number) with
    | Ok r => (Ok r, append_history r st)
    | Raise e => (Raise e, st)
    end.
Proof. intros H; unfold analyze_phone_number; rewrite H; reflexivity. Qed.

(** A check that is not an emergency check returns exactly when the answer
    of the Gemini step is usable. *)
Lemma analyze_returns_iff st now number use_ai :
  ~ In (normalize number) emergency_numbers ->
  (exists r st', analyze st now number use_ai = (Ok r, st')) <->
  answer_usable st now number use_ai.
Proof.
  intros Hne; apply str_in_not_In in Hne.
  rewrite (analyze_other st now number use_ai Hne).
  unfold gemini_answer_usable; rewrite <- ai_check_returns_iff.
  destruct (gemini_step st number use_ai (basic_result st now number)) as [r|e].
  - split; eauto.
  - split; [intros (r & st' & H) | intros (r & H)]; discriminate.
Qed.

Lemma basic_result_level st now number :
  risk_level (basic_result st now number) <> Emergency.
Proof.
  unfold basic_result; apply rule_chain_escalates; simpl; discriminate.
Qed.

Lemma basic_result_known_scam st now number :
  In number (known_scam_numbers (scam_db st)) ->
  risk_level (basic_result st now number) = Danger
  /\ In (py "🚨 既知の詐欺電話番号です！") (warnings (basic_result st now number)).
Proof.
  intros Hin; apply str_in_In in Hin.
  unfold basic_result; rewrite rule_chain_run_steps.
  set (r0 := set_caller_type _ _).
  unfold rule_steps.
  change (run_steps ([known_scam_check ?db ?n] ++ ?l) r0)
    with (run_steps l (known_scam_check db n r0)).
  set (rest := _ ++ _).
  assert (Hrest : escalates (run_steps rest)).
  { apply run_steps_escalates.
    pose proof (rule_steps_escalate (scam_db st) number (normalize number)) as H.
    unfold rule_steps in H; apply Forall_app in H; apply H. }
  set (r1 := known_scam_check (scam_db st) number r0).
  assert (H1 : risk_level r1 = Danger
               /\ warnings r1 = [py "🚨 既知の詐欺電話番号です！"]).
  { unfold r1, known_scam_check; rewrite Hin; split; reflexivity. }
  destruct H1 as [Hl Hw].
  destruct (Hrest r1) as (Hne & Hle & ws & Hws); [rewrite Hl; discriminate|].
  split.
  - apply Danger_top; [exact Hne | rewrite <- Hl; exact Hle].
  - rewrite Hws, Hw; left; reflexivity.
Qed.

Lemma basic_result_suspicious_prefix st now number prefix :
  In prefix (suspicious_prefixes (scam_db st)) ->
  startswith (normalize number) prefix = true ->
  risk_level (basic_result st now number) <> Safe.
Proof.
  intros Hin Hm; unfold basic_result.
  rewrite rule_chain_after_prefixes.
  set (r0 := set_caller_type _ _).
  set (r2 := fold_left (reported_case_check number) _ _).
  assert (H2 : risk_level r2 <> Emergency).
  { apply (fold_left_escalates (reported_case_check number) _
             (reported_case_check_escalates number)).
    apply known_scam_check_escalates; simpl; discriminate. }
  set (r3 := fold_left (prefix_check (normalize number)) _ r2).
  assert (H3 : risk_level r3 <> Safe).
  { apply prefix_loop_not_safe; [exists prefix; split; assumption | exact H2]. }
  assert (H3' : risk_level r3 <> Emergency).
  { apply (fold_left_escalates (prefix_check (normalize number)) _
             (prefix_check_escalates (normalize number)) _ H2). }
  destruct (later_steps_escalate (scam_db st) number (normalize number) r3 H3')
    as (_ & Hle & _).
  eapply not_Safe_above; eassumption.
Qed.

Lemma emergency_numbers_In (normalized : str) :
  In normalized emergency_numbers <->
  normalized = py "110" \/ normalized = py "119" \/ normalized = py "118".
Proof.
  unfold emergency_numbers; simpl; intuition congruence.
Qed.

(** ** Emergency numbers *)

(** C1. When the normalized input is 110, 119 or 118 the call returns a
    result whose level is "emergency"; none of the later rules has run: the
    result has no warning and no recommendation, its only detail is the
    emergency notice, and it carries no Gemini analysis. *)
Theorem emergency_number_is_emergency st now number use_ai :
  normalize number = py "110" \/ normalize number = py "119"
  \/ normalize number = py "118" ->
  exists r,
    fst (analyze_phone_number json_loads format_value G st now number use_ai)
    = Ok r
    /\ risk_level r = Emergency
    /\ warnings r = []
    /\ recommendations r = []
    /\ details r = [py "✅ 緊急通報番号です"]
    /\ ai_analysis r = JNull.
Proof.
  intros H; apply emergency_numbers_In, str_in_In in H.
  rewrite (analyze_emergency st now number use_ai H).
  eexists; split; [reflexivity|].
  repeat split.
Qed.

(** ** Known scam numbers *)

(** X29, the part of C2 that the code keeps.  When the input is in the
    list of known scam numbers, its normalized form is not an emergency
    number and the Gemini step, if it runs, obtains a usable answer, the
    call returns a result whose level is "danger" and whose warnings contain
    the known-scam warning. *)
Theorem known_scam_number_is_danger st now number use_ai :
  In number (known_scam_numbers (scam_db st)) ->
  ~ In (normalize number) emergency_numbers ->
  gemini_answer_usable json_loads G st now number use_ai ->
  exists r,
    analyze_phone_number json_loads format_value G st now number use_ai
    = (Ok r, append_history r st)
    /\ risk_level r = Danger
    /\ In (py "🚨 既知の詐欺電話番号です！") (warnings r).
Proof.
  intros Hin Hne Hai; apply str_in_not_In in Hne.
  rewrite (analyze_other st now number use_ai Hne).
  destruct (ai_check_returns st number use_ai _ Hai) as [r Hr].
  rewrite Hr; exists r; split; [reflexivity|].
  destruct (ai_check_escalates _ _ _ _ _ Hr) as [Hl (ws & Hw)].
  destruct (basic_result_known_scam st now number Hin) as [Hd Hin'].
  split.
  - destruct Hl as [-> | ->]; [exact Hd | reflexivity].
  - rewrite Hw; apply in_or_app; left; exact Hin'.
Qed.

(** ** Escalation *)

(** C3. In one evaluation the level never goes down.  The results before the
    first rule and after each rule (every iteration of the reported-case,
    prefix and pattern loops counting as a rule) have levels in
    non-decreasing order for safe, caution, danger, none of them is
    "emergency", the last of them is the result handed to the Gemini step,
    and the Gemini step, when it returns, returns a result whose level is at
    least the level it was given. *)
Theorem risk_level_only_escalates st now number use_ai :
  let r0 := set_caller_type (identify_caller_type number (normalize number))
              (new_result number (normalize number) now) in
  let steps := rule_steps (scam_db st) number (normalize number) in
  risk_level r0 = Safe
  /\ last (trace steps r0) r0 = basic_result st now number
  /\ StronglySorted risk_le (map risk_level (trace steps r0))
  /\ Forall (fun r => risk_level r <> Emergency) (trace steps r0)
  /\ forall r,
       ai_check json_loads format_value G st number use_ai
         (basic_result st now number) = Ok r ->
       risk_le (risk_level (basic_result st now number)) (risk_level r)
       /\ risk_level r <> Emergency.
Proof.
  intros r0 steps.
  assert (H0 : risk_level r0 <> Emergency) by (simpl; discriminate).
  pose proof (rule_steps_escalate (scam_db st) number (normalize number)) as Hs.
  fold steps in Hs.
  split; [reflexivity|].
  split; [rewrite trace_last; unfold basic_result; fold r0;
          rewrite rule_chain_run_steps; reflexivity|].
  split; [apply trace_sorted; assumption|].
  split.
  - eapply Forall_impl; [|apply (trace_above steps r0 Hs H0)].
    intros r Hr; apply Hr.
  - intros r Hr.
    destruct (ai_check_escalates _ _ _ _ _ Hr) as [[E | E] _]; rewrite E.
    + split; [apply risk_le_refl | apply basic_result_level].
    + split; [apply risk_le_Danger, basic_result_level | discriminate].
Qed.

(** ** Suspicious prefixes *)

(** X30, the part of C4 that the code keeps.  When the normalized input
    starts with one of the suspicious prefixes of the database and is not an
    emergency number, and the Gemini step, if it runs, obtains a usable
    answer, the call returns a result whose level is "caution" or "danger",
    never "safe". *)
Theorem suspicious_prefix_is_at_least_caution st now number use_ai prefix :
  In prefix (suspicious_prefixes (scam_db st)) ->
  startswith (normalize number) prefix = true ->
  ~ In (normalize number) emergency_numbers ->
  gemini_answer_usable json_loads G st now number use_ai ->
  exists r,
    analyze_phone_number json_loads format_value G st now number use_ai
    = (Ok r, append_history r st)
    /\ (risk_level r = Caution \/ risk_level r = Danger).
Proof.
  intros Hin Hm Hne Hai; apply str_in_not_In in Hne.
  rewrite (analyze_other st now number use_ai Hne).
  destruct (ai_check_returns st number use_ai _ Hai) as [r Hr].
  rewrite Hr; exists r; split; [reflexivity|].
  destruct (ai_check_escalates _ _ _ _ _ Hr) as [[E | E] _]; [|right; exact E].
  pose proof (basic_result_suspicious_prefix st now number prefix Hin Hm) as Hs.
  pose proof (basic_result_level st now number) as He.
  rewrite E; destruct (risk_level (basic_result st now number));
    [congruence | left; reflexivity | right; reflexivity | congruence].
Qed.

(** ** The history *)

(** Every check that is not an emergency check and returns adds its result,
    and only it, at the end of the history. *)
Lemma check_is_recorded st now number use_ai r st' :
  ~ In (normalize number) emergency_numbers ->
  analyze_phone_number json_loads format_value G st now number use_ai
  = (Ok r, st') ->
  check_history st' = check_history st ++ [r].
Proof.
  intros Hne; apply str_in_not_In in Hne.
  rewrite (analyze_other st now number use_ai Hne).
  destruct (ai_check _ _ _ _ _ _ _); intros [= <- <-]; reflexivity.
Qed.

(** C7, evaluated on the input 110: the call returns its result, and the
    session, with its history, is left as it was: the result is not added
    to the history. *)
Theorem emergency_check_is_not_recorded st now use_ai :
  exists r,
    analyze_phone_number json_loads format_value G st now (py "110") use_ai
    = (Ok r, st)
    /\ risk_level r = Emergency
    /\ check_history
         (snd (analyze_phone_number json_loads format_value G st now
                 (py "110") use_ai))
       = check_history st.
Proof.
  assert (H : str_in (normalize (py "110")) emergency_numbers = true)
    by (vm_compute; reflexivity).
  rewrite (analyze_emergency st now (py "110") use_ai H).
  eexists; repeat split.
Qed.

(** ** Look-ups by the raw input *)

Lemma known_scam_check_unlisted db number r :
  ~ In number (known_scam_numbers db) -> known_scam_check db number r = r.
Proof.
  intros H; apply str_in_not_In in H.
  unfold known_scam_check; rewrite H; reflexivity.
Qed.

Lemma reported_loop_unreported number cases r :
  (forall c, In c cases -> case_number c <> number) ->
  fold_left (reported_case_check number) cases r = r.
Proof.
  revert r; induction cases as [|c cases IH]; intros r H; [reflexivity|].
  simpl; unfold reported_case_check at 2.
  assert (E : str_eqb (case_number c) number = false)
    by (apply str_eqb_neq, H; left; reflexivity).
  rewrite E; apply IH; intros c' Hc'; apply H; right; exact Hc'.
Qed.

(** C10. The known-scam test and the reported-case search compare the
    input as typed with the stored numbers: an input that is not itself in
    the list passes the first unchanged, and an input that is not itself the
    number of a case passes the second unchanged.  So with 03-1234-5678 in
    the list and reported once, the input 0312345678, which has the same
    normalized form, is checked as safe with no warning, while 03-1234-5678
    is checked as danger with both warnings. *)
Theorem scam_lookups_use_the_raw_input key now detail :
  (forall db number r,
      ~ In number (known_scam_numbers db) -> known_scam_check db number r = r)
  /\ (forall number cases r,
        (forall c, In c cases -> case_number c <> number) ->
        fold_left (reported_case_check number) cases r = r)
  /\ let st := submit_report (initial_session key) now (py "03-1234-5678")
                 detail (py "詐欺") in
     In (py "03-1234-5678") (known_scam_numbers (scam_db st))
     /\ map case_number (reported_cases (scam_db st)) = [py "03-1234-5678"]
     /\ normalize (py "0312345678") = normalize (py "03-1234-5678")
     /\ (exists r,
           analyze_phone_number json_loads format_value G st now
             (py "0312345678") false = (Ok r, append_history r st)
           /\ risk_level r = Safe /\ warnings r = [])
     /\ (exists r,
           analyze_phone_number json_loads format_value G st now
             (py "03-1234-5678") false = (Ok r, append_history r st)
           /\ risk_level r = Danger
           /\ warnings r = [py "🚨 既知の詐欺電話番号です！";
                            py "⚠️ 1件の通報あり"]).
Proof.
  split; [exact known_scam_check_unlisted|].
  split; [exact reported_loop_unreported|].
  intros st.
  split; [left; reflexivity|].
  split; [reflexivity|].
  split; [vm_compute; reflexivity|].
  split; eexists; (split; [reflexivity | split; vm_compute; reflexivity]).
Qed.

(** ** Answers that are not JSON *)

(** C9. When the client is set up and the model answers with a text that
    [json.loads] refuses, [analyze_with_gemini] returns, without raising, the
    fallback record whose summary is the first 200 characters of the text,
    and [analyze_conversation_with_gemini] returns, without raising, the
    record whose explanation is the first 200 characters of the text. *)
Theorem unparsable_answer_falls_back st number basic c conversation_text
  answer1 answer2 t1 t2 e1 e2 :
  setup_gemini G st = Ok true ->
  GenerativeModel G "gemini-pro" = Ok tt ->
  caller_type basic = Some c ->
  generate_content G (build_number_prompt number basic c) = Ok answer1 ->
  text answer1 = Ok t1 ->
  json_loads t1 = Raise e1 ->
  generate_content G (ConversationPrompt conversation_text) = Ok answer2 ->
  text answer2 = Ok t2 ->
  json_loads t2 = Raise e2 ->
  (analyze_with_gemini json_loads G st number basic
   = Ok (number_fallback (firstn 200 t1))
   /\ json_get (number_fallback (firstn 200 t1)) (py "summary") JNull
      = Ok (JStr (firstn 200 t1)))
  /\ (analyze_conversation_with_gemini json_loads G st conversation_text
      = Ok (conversation_fallback (firstn 200 t2))
      /\ json_get (conversation_fallback (firstn 200 t2)) (py "explanation")
           JNull
         = Ok (JStr (firstn 200 t2)))
  /\ List.length (firstn 200 t1) <= 200
  /\ List.length (firstn 200 t2) <= 200.
Proof.
  intros Hsetup Hmodel Hc Hg1 Ht1 Hl1 Hg2 Ht2 Hl2.
  split; [|split].
  - split; [|reflexivity].
    unfold analyze_with_gemini.
    rewrite Hsetup; simpl; rewrite Hmodel; simpl; rewrite Hc; simpl.
    rewrite Hg1; simpl; rewrite Ht1; simpl; rewrite Hl1; reflexivity.
  - split; [|reflexivity].
    unfold analyze_conversation_with_gemini.
    rewrite Hsetup; simpl; rewrite Hmodel; simpl.
    rewrite Hg2; simpl; rewrite Ht2; simpl; rewrite Hl2; reflexivity.
  - split; apply firstn_le_length.
Qed.

End Properties.

(** ** Reports *)

Lemma find_existing_None n cases :
  (forall c, In c cases -> case_number c <> n) -> find_existing n cases = None.
Proof.
  induction cases as [|c cases IH]; intros H; simpl; [reflexivity|].
  assert (E : str_eqb (case_number c) n = false)
    by (apply str_eqb_neq, H; left; reflexivity).
  rewrite E, IH; [reflexivity|].
  intros c' Hc'; apply H; right; exact Hc'.
Qed.

Lemma find_existing_skip n cases c rest :
  (forall c', In c' cases -> case_number c' <> n) -> case_number c = n ->
  find_existing n (cases ++ c :: rest) = Some (List.length cases).
Proof.
  intros H Hc; induction cases as [|c0 cases IH]; simpl.
  - rewrite Hc, str_eqb_refl; reflexivity.
  - assert (E : str_eqb (case_number c0) n = false)
      by (apply str_eqb_neq, H; left; reflexivity).
    rewrite E, IH; [reflexivity|].
    intros c' Hc'; apply H; right; exact Hc'.
Qed.

Lemma update_case_middle f cases c rest :
  update_case (List.length cases) f (cases ++ c :: rest)
  = cases ++ f c :: rest.
Proof. induction cases as [|c0 cases IH]; simpl; congruence. Qed.

Lemma submit_report_new st now n d cat :
  n <> [] ->
  (forall c, In c (reported_cases (scam_db st)) -> case_number c <> n) ->
  reported_cases (scam_db (submit_report st now n d cat))
  = reported_cases (scam_db st) ++ [mkCase n (py "[" ++ cat ++ py "] " ++ d) now 1].
Proof.
  intros Hn H; unfold submit_report, report_form.
  destruct n as [|x n]; [congruence|]; simpl.
  rewrite (find_existing_None _ _ H); reflexivity.
Qed.

Lemma submit_report_again st now n d cat cases c rest :
  n <> [] ->
  reported_cases (scam_db st) = cases ++ c :: rest ->
  (forall c', In c' cases -> case_number c' <> n) -> case_number c = n ->
  reported_cases (scam_db (submit_report st now n d cat))
  = cases ++ add_to_case d c :: rest.
Proof.
  intros Hn E H Hc; unfold submit_report, report_form.
  destruct n as [|x n]; [congruence|]; simpl.
  rewrite E, (find_existing_skip _ _ _ rest H Hc); simpl.
  apply update_case_middle.
Qed.

(** C5. Take a state with no case for the numbers [n] and [m], both given
    and different.  Two reports for [n] leave one case for [n], added after
    the cases already there: its count is 2 and its description is the
    description stored by the first report followed by a line made of the
    marker of the second report and the text of the second report.  A report
    for [n] and one for [m] leave two cases, each with count 1 and its own
    description, and a further report for [n] changes the case of [n] only. *)
Theorem reports_for_a_number_are_merged st now1 now2 now3 n m d1 c1 d2 c2 d3 c3 :
  n <> [] -> m <> [] -> n <> m ->
  (forall c, In c (reported_cases (scam_db st)) -> case_number c <> n) ->
  (forall c, In c (reported_cases (scam_db st)) -> case_number c <> m) ->
  let first := py "[" ++ c1 ++ py "] " ++ d1 in
  let second := py "[" ++ c2 ++ py "] " ++ d2 in
  reported_cases
    (scam_db (submit_report (submit_report st now1 n d1 c1) now2 n d2 c2))
  = reported_cases (scam_db st)
    ++ [mkCase n (first ++ 10%N :: py "[追加通報 2] " ++ d2) now1 2]
  /\ reported_cases
       (scam_db (submit_report (submit_report st now1 n d1 c1) now2 m d2 c2))
     = reported_cases (scam_db st)
       ++ [mkCase n first now1 1; mkCase m second now2 1]
  /\ reported_cases
       (scam_db (submit_report
                   (submit_report (submit_report st now1 n d1 c1) now2 m d2 c2)
                   now3 n d3 c3))
     = reported_cases (scam_db st)
       ++ [mkCase n (first ++ 10%N :: py "[追加通報 2] " ++ d3) now1 2;
           mkCase m second now2 1].
Proof.
  intros Hn Hm Hnm Hcn Hcm first second.
  pose proof (submit_report_new st now1 n d1 c1 Hn Hcn) as E1.
  fold first in E1.
  assert (E2 : reported_cases
                 (scam_db (submit_report (submit_report st now1 n d1 c1)
                             now2 m d2 c2))
               = reported_cases (scam_db st)
                 ++ [mkCase n first now1 1; mkCase m second now2 1]).
  { rewrite (submit_report_new _ now2 m d2 c2 Hm).
    - rewrite E1, <- app_assoc; reflexivity.
    - rewrite E1; intros c Hc; apply in_app_or in Hc as [Hc | [<- | []]];
        [apply Hcm; exact Hc | simpl; exact Hnm]. }
  split; [|split].
  - rewrite (submit_report_again _ now2 n d2 c2 _ _ [] Hn E1 Hcn eq_refl).
    reflexivity.
  - exact E2.
  - rewrite (submit_report_again _ now3 n d3 c3 _ _ [mkCase m second now2 1]
               Hn E2 Hcn eq_refl).
    reflexivity.
Qed.

(** ** The prefixes of the shipped database, matched on the raw input *)

Lemma startswith_prefix (s p : str) :
  startswith s p = true <-> exists t, s = p ++ t.
Proof.
  split.
  - revert s; induction p as [|y p IH]; intros s H; simpl in *.
    + exists s; reflexivity.
    + destruct s as [|x s]; [discriminate|].
      apply andb_true_iff in H as [Hx Hs]; apply N.eqb_eq in Hx; subst.
      destruct (IH _ Hs) as [t ->]; exists t; reflexivity.
  - intros [t ->]; induction p as [|y p IH]; simpl; [reflexivity|].
    rewrite N.eqb_refl; exact IH.
Qed.

Lemma startswith_trans (s p q : str) :
  startswith s p = true -> startswith p q = true -> startswith s q = true.
Proof.
  rewrite !startswith_prefix; intros [t ->] [u ->].
  exists (u ++ t); rewrite app_assoc; reflexivity.
Qed.

Lemma strip_separators_app (a b : str) :
  strip_separators (a ++ b) = strip_separators a ++ strip_separators b.
Proof.
  rewrite !strip_separators_filter; apply filter_app.
Qed.

(** A prefix without separators is still a prefix after normalization. *)
Lemma startswith_normalize (number p : str) :
  forallb (fun c => negb (is_separator c)) p = true ->
  startswith number p = true -> startswith (normalize number) p = true.
Proof.
  intros Hp H; apply startswith_prefix in H as [t ->].
  unfold normalize; rewrite strip_separators_app.
  rewrite (strip_separators_fixed p).
  - apply startswith_prefix; eexists; reflexivity.
  - apply Forall_forall; intros c Hc.
    rewrite forallb_forall in Hp; apply negb_true_iff, Hp, Hc.
Qed.

Lemma rule_chain_after_patterns db number normalized r :
  exists r4,
    risk_level r4 <> Emergency
    /\ (exists ws, warnings r4 = warnings r ++ ws)
    /\ rule_chain db number normalized (set_risk_level Safe r)
       = safe_recommendations
           (add_details number normalized
              (international_check number normalized r4)).
Proof.
  unfold rule_chain.
  set (r4 := fold_left (pattern_check number) _ _).
  exists r4; split; [|split; [|reflexivity]].
  - apply (fold_left_escalates (pattern_check number) _
             (pattern_check_escalates number)).
    apply (fold_left_escalates (prefix_check normalized) _
             (prefix_check_escalates normalized)).
    apply (fold_left_escalates (reported_case_check number) _
             (reported_case_check_escalates number)).
    apply known_scam_check_escalates; simpl; discriminate.
  - assert (H0 : risk_level (set_risk_level Safe r) <> Emergency)
      by (simpl; discriminate).
    pose proof (known_scam_check_escalates db number _ H0) as (H1 & _ & ws1 & E1).
    pose proof (fold_left_escalates (reported_case_check number)
                  (reported_cases db) (reported_case_check_escalates number)
                  _ H1) as (H2 & _ & ws2 & E2).
    pose proof (fold_left_escalates (prefix_check normalized)
                  (suspicious_prefixes db) (prefix_check_escalates normalized)
                  _ H2) as (H3 & _ & ws3 & E3).
    pose proof (fold_left_escalates (pattern_check number)
                  (warning_patterns db) (pattern_check_escalates number)
                  _ H3) as (_ & _ & ws4 & E4).
    exists (ws1 ++ ws2 ++ ws3 ++ ws4).
    unfold r4; rewrite E4, E3, E2, E1; simpl.
    rewrite <- !app_assoc; reflexivity.
Qed.

(** An international number is never left at safe and carries the
    international warning. *)
Lemma basic_result_international st now number :
  startswith number (py "+") || startswith (normalize number) (py "010") = true ->
  risk_level (basic_result st now number) <> Safe
  /\ In (py "🌍 国際電話です") (warnings (basic_result st now number)).
Proof.
  intros Hi; unfold basic_result.
  set (r0 := set_caller_type _ _).
  destruct (rule_chain_after_patterns (scam_db st) number (normalize number) r0)
    as (r4 & H4 & _ & E).
  change (set_risk_level Safe r0) with r0 in E; rewrite E; clear E.
  set (r5 := international_check number (normalize number) r4).
  assert (H5 : risk_level r5 <> Safe /\ risk_level r5 <> Emergency
               /\ In (py "🌍 国際電話です") (warnings r5)).
  { unfold r5, international_check; rewrite Hi; simpl.
    destruct (risk_eqb (risk_level r4) Safe) eqn:E; simpl.
    - repeat split; try discriminate. apply in_or_app; right; left; reflexivity.
    - repeat split; [|exact H4|apply in_or_app; right; left; reflexivity].
      intros Hs; rewrite Hs in E; discriminate. }
  destruct H5 as (Hs & He & Hw).
  pose proof (escalates_compose _ _
                (add_details_escalates number (normalize number))
                safe_recommendations_escalates r5 He) as (_ & Hle & ws & Hws).
  split; [eapply not_Safe_above; eassumption|].
  rewrite Hws; apply in_or_app; left; exact Hw.
Qed.

Section ShippedPrefixes.

Variable json_loads : str -> pyres json.
Variable format_value : json -> str.
Variable G : genai.

(** With the prefixes of the shipped database (050, 070, +675, +234 and
    +1-876) the conclusion of X30 also holds when it is the input as typed
    that starts with the prefix: 050 and 070 are then prefixes of the
    normalized form, and an input that starts with a plus sign is an
    international number. *)
Lemma shipped_prefix_on_raw_input st now number use_ai prefix :
  suspicious_prefixes (scam_db st) = suspicious_prefixes initial_scam_database ->
  In prefix (suspicious_prefixes (scam_db st)) ->
  startswith number prefix = true ->
  ~ In (normalize number) emergency_numbers ->
  gemini_answer_usable json_loads G st now number use_ai ->
  exists r,
    analyze_phone_number json_loads format_value G st now number use_ai
    = (Ok r, append_history r st)
    /\ (risk_level r = Caution \/ risk_level r = Danger).
Proof.
  intros Hdb Hin Hm Hne Hai.
  assert (Hs : risk_level (basic_result st now number) <> Safe).
  { pose proof Hin as Hin'; rewrite Hdb in Hin'; simpl in Hin'.
    destruct Hin' as [<- | [<- | Hplus]].
    - apply (basic_result_suspicious_prefix st now number (py "050") Hin).
      apply startswith_normalize; [vm_compute; reflexivity | exact Hm].
    - apply (basic_result_suspicious_prefix st now number (py "070") Hin).
      apply startswith_normalize; [vm_compute; reflexivity | exact Hm].
    - apply basic_result_international, orb_true_iff; left.
      apply (startswith_trans _ _ _ Hm).
      destruct Hplus as [<- | [<- | [<- | []]]]; vm_compute; reflexivity. }
  apply str_in_not_In in Hne.
  rewrite (analyze_other json_loads format_value G st now number use_ai Hne).
  destruct (ai_check_returns json_loads format_value G st number use_ai _ Hai)
    as [r Hr].
  rewrite Hr; exists r; split; [reflexivity|].
  destruct (ai_check_escalates json_loads format_value G _ _ _ _ _ Hr)
    as [[E | E] _]; [|right; exact E].
  pose proof (basic_result_level st now number) as He.
  rewrite E; destruct (risk_level (basic_result st now number));
    [congruence | left; reflexivity | right; reflexivity | congruence].
Qed.

End ShippedPrefixes.

(** ** The scenarios of the specification *)

Section Scenarios.

Variable json_loads : str -> pyres json.
Variable format_value : json -> str.
Variable G : genai.
Variable key now : str.

Local Abbreviation outcome := (outcome json_loads format_value G key now).

Example scenario_110 :
  outcome (py "110") = Some (Emergency, Some (py "緊急通報番号"), []).
Proof. vm_compute; reflexivity. Qed.

Example scenario_0120_999_999 :
  outcome (py "0120-999-999")
  = Some (Danger, Some (py "企業カスタマーサポート"),
          [py "🚨 既知の詐欺電話番号です！"; py "⚠️ 警戒が必要なパターンです"]).
Proof. vm_compute; reflexivity. Qed.

Example scenario_050_1111_2222 :
  outcome (py "050-1111-2222")
  = Some (Danger, Some (py "IP電話利用者"),
          [py "🚨 既知の詐欺電話番号です！"; py "⚠️ 疑わしいプレフィックス: 050"]).
Proof. vm_compute; reflexivity. Qed.

Example scenario_1_876_555_1234 :
  outcome (py "+1-876-555-1234")
  = Some (Caution, Some (py "国際電話"),
          [py "⚠️ 警戒が必要なパターンです"; py "🌍 国際電話です"]).
Proof. vm_compute; reflexivity. Qed.

End Scenarios.

(** * The theorems on concrete inputs *)

(** The check of 119 in a fresh session. *)
Lemma emergency_number_is_emergency_witness :
  exists r,
    fst (analyze_phone_number loads_sample format_sample
           (canned_genai (py "{}")) (initial_session (py "test-key"))
           (py "2026-01-01 09:00:00") (py "119") true)
    = Ok r
    /\ risk_level r = Emergency
    /\ warnings r = []
    /\ recommendations r = []
    /\ details r = [py "✅ 緊急通報番号です"]
    /\ ai_analysis r = JNull.
Proof.
  apply emergency_number_is_emergency.
  right; left; vm_compute; reflexivity.
Defined.

(** The check of 0120-999-999 with the Gemini step on and a model that
    answers with plain text. *)
Lemma known_scam_number_is_danger_witness :
  let st := mkSession [] initial_scam_database (py "test-key") true in
  exists r,
    analyze_phone_number loads_sample format_sample
      (canned_genai (py "no json")) st (py "2026-01-01 09:00:00")
      (py "0120-999-999") true
    = (Ok r, append_history r st)
    /\ risk_level r = Danger
    /\ In (py "🚨 既知の詐欺電話番号です！") (warnings r).
Proof.
  intros st; apply known_scam_number_is_danger.
  - right; left; reflexivity.
  - apply str_in_not_In; vm_compute; reflexivity.
  - intros _; exists (number_fallback (py "no json")).
    split; vm_compute; reflexivity.
Defined.

(** The check of 050-3333-4444 with the Gemini step on and a model that
    answers with an empty object. *)
Lemma suspicious_prefix_is_at_least_caution_witness :
  let st := mkSession [] initial_scam_database (py "test-key") true in
  exists r,
    analyze_phone_number loads_sample format_sample
      (canned_genai (py "{}")) st (py "2026-01-01 09:00:00")
      (py "050-3333-4444") true
    = (Ok r, append_history r st)
    /\ (risk_level r = Caution \/ risk_level r = Danger).
Proof.
  intros st; apply suspicious_prefix_is_at_least_caution with (prefix := py "050").
  - left; reflexivity.
  - vm_compute; reflexivity.
  - apply str_in_not_In; vm_compute; reflexivity.
  - intros _; exists (JDict []); split; vm_compute; reflexivity.
Defined.

(** C2, evaluated on the known scam number 0120-999-999 with the Gemini
    step on and a model that answers with the JSON list [[1]]: the adapter
    returns the list, line 381 calls [get] on it, and the call raises
    [AttributeError] instead of returning a result with the level danger;
    the session is left as it was. *)
Theorem known_scam_check_raises_on_list_answer now :
  let st := mkSession [] initial_scam_database (py "test-key") true in
  let number := py "0120-999-999" in
  In number (known_scam_numbers (scam_db st))
  /\ str_in (normalize number) emergency_numbers = false
  /\ analyze_with_gemini loads_sample (canned_genai (py "[1]")) st number
       (basic_result st now number)
     = Ok (JList [JInt 1])
  /\ analyze_phone_number loads_sample format_sample (canned_genai (py "[1]"))
       st now number true
     = (Raise AttributeError, st).
Proof.
  intros st number.
  split; [right; left; reflexivity|].
  split; [vm_compute; reflexivity|].
  assert (Hv : analyze_with_gemini loads_sample (canned_genai (py "[1]")) st
                 number (basic_result st now number)
               = Ok (JList [JInt 1])).
  { vm_compute; reflexivity. }
  split; [exact Hv|].
  rewrite (analyze_other loads_sample format_sample (canned_genai (py "[1]"))
             st now number true) by (vm_compute; reflexivity).
  rewrite (ai_check_raises loads_sample format_sample
             (canned_genai (py "[1]")) st number _ (JList [JInt 1])
             eq_refl Hv eq_refl).
  reflexivity.
Qed.

(** C4, evaluated on 050-3333-4444, whose normalized form starts with the
    suspicious prefix 050, with the Gemini step on and a model that answers
    with the JSON list [[1]]: the call raises [AttributeError] at line 381
    instead of returning a result with the level caution or danger; the
    session is left as it was. *)
Theorem suspicious_prefix_check_raises_on_list_answer now :
  let st := mkSession [] initial_scam_database (py "test-key") true in
  let number := py "050-3333-4444" in
  In (py "050") (suspicious_prefixes (scam_db st))
  /\ startswith (normalize number) (py "050") = true
  /\ str_in (normalize number) emergency_numbers = false
  /\ analyze_with_gemini loads_sample (canned_genai (py "[1]")) st number
       (basic_result st now number)
     = Ok (JList [JInt 1])
  /\ analyze_phone_number loads_sample format_sample (canned_genai (py "[1]"))
       st now number true
     = (Raise AttributeError, st).
Proof.
  intros st number.
  split; [left; reflexivity|].
  split; [vm_compute; reflexivity|].
  split; [vm_compute; reflexivity|].
  assert (Hv : analyze_with_gemini loads_sample (canned_genai (py "[1]")) st
                 number (basic_result st now number)
               = Ok (JList [JInt 1])).
  { vm_compute; reflexivity. }
  split; [exact Hv|].
  rewrite (analyze_other loads_sample format_sample (canned_genai (py "[1]"))
             st now number true) by (vm_compute; reflexivity).
  rewrite (ai_check_raises loads_sample format_sample
             (canned_genai (py "[1]")) st number _ (JList [JInt 1])
             eq_refl Hv eq_refl).
  reflexivity.
Qed.

(** Reports for 090-0000-1111 and 03-0000-2222 in a fresh session. *)
Lemma reports_for_a_number_are_merged_witness :
  let st := initial_session (py "test-key") in
  let n := py "090-0000-1111" in
  let m := py "03-0000-2222" in
  reported_cases
    (scam_db (submit_report
                (submit_report st (py "2026-01-01 09:00:00") n
                   (py "bank transfer") (py "詐欺"))
                (py "2026-01-02 10:00:00") n (py "again") (py "その他")))
  = [mkCase n (py "[詐欺] bank transfer" ++ 10%N :: py "[追加通報 2] again")
       (py "2026-01-01 09:00:00") 2]
  /\ reported_cases
       (scam_db (submit_report
                   (submit_report st (py "2026-01-01 09:00:00") n
                      (py "bank transfer") (py "詐欺"))
                   (py "2026-01-02 10:00:00") m (py "again") (py "その他")))
     = [mkCase n (py "[詐欺] bank transfer") (py "2026-01-01 09:00:00") 1;
        mkCase m (py "[その他] again") (py "2026-01-02 10:00:00") 1].
Proof.
  intros st n m.
  destruct (reports_for_a_number_are_merged st
              (py "2026-01-01 09:00:00") (py "2026-01-02 10:00:00")
              (py "2026-01-03 11:00:00") n m
              (py "bank transfer") (py "詐欺") (py "again") (py "その他")
              (py "third") (py "詐欺"))
    as (H1 & H2 & _).
  - vm_compute; discriminate.
  - vm_compute; discriminate.
  - vm_compute; discriminate.
  - intros c [].
  - intros c [].
  - split; [rewrite H1 | rewrite H2]; vm_compute; reflexivity.
Defined.

(** A model that answers with plain text, for a number and for a
    conversation. *)
Lemma unparsable_answer_falls_back_witness :
  let st := mkSession [] initial_scam_database (py "test-key") true in
  let G := canned_genai (py "I cannot answer") in
  let basic := basic_result st (py "2026-01-01 09:00:00") (py "050-3333-4444") in
  analyze_with_gemini loads_sample G st (py "050-3333-4444") basic
  = Ok (number_fallback (py "I cannot answer"))
  /\ analyze_conversation_with_gemini loads_sample G st (py "hello")
     = Ok (conversation_fallback (py "I cannot answer")).
Proof.
  intros st G basic.
  destruct (unparsable_answer_falls_back loads_sample G st
              (py "050-3333-4444") basic
              (identify_caller_type (py "050-3333-4444")
                 (normalize (py "050-3333-4444")))
              (py "hello")
              (mkResponse (Ok (py "I cannot answer")))
              (mkResponse (Ok (py "I cannot answer")))
              (py "I cannot answer") (py "I cannot answer")
              (mkExn "JSONDecodeError" true) (mkExn "JSONDecodeError" true))
    as ((H1 & _) & (H2 & _) & _);
    try (vm_compute; reflexivity).
  split; [rewrite H1 | rewrite H2]; vm_compute; reflexivity.
Defined.

(** * Further properties *)

(** ** The level as a decision table *)

Lemma reported_loop_level number cases r :
  risk_level (fold_left (reported_case_check number) cases r)
  = if reported number cases then Danger else risk_level r.
Proof.
  revert r; induction cases as [|c cases IH]; intros r; [reflexivity|].
  simpl; rewrite IH; unfold reported_case_check.
  destruct (str_eqb (case_number c) number); simpl;
    destruct (reported number cases); reflexivity.
Qed.

(** A loop whose body raises safe to caution on a hit and changes nothing
    else of the level. *)
Lemma mild_loop_level {B : Type} (f : result -> B -> result) (hit : B -> bool)
  (l : list B) :
  (forall r b, risk_level (f r b)
               = if hit b && risk_eqb (risk_level r) Safe then Caution
                 else risk_level r) ->
  forall r, risk_level (fold_left f l r)
            = if existsb hit l && risk_eqb (risk_level r) Safe then Caution
              else risk_level r.
Proof.
  intros Hf; induction l as [|b l IH]; intros r; [reflexivity|].
  simpl; rewrite IH, Hf.
  destruct (hit b), (existsb hit l), (risk_level r); reflexivity.
Qed.

Lemma prefix_check_level normalized r prefix :
  risk_level (prefix_check normalized r prefix)
  = if startswith normalized prefix && risk_eqb (risk_level r) Safe
    then Caution else risk_level r.
Proof.
  unfold prefix_check; destruct (startswith normalized prefix); simpl;
    [|reflexivity].
  destruct (risk_eqb (risk_level r) Safe); reflexivity.
Qed.

Lemma pattern_check_level number r pattern :
  risk_level (pattern_check number r pattern)
  = if re_match pattern number && risk_eqb (risk_level r) Safe
    then Caution else risk_level r.
Proof.
  unfold pattern_check; destruct (re_match pattern number); simpl;
    [|reflexivity].
  destruct (risk_eqb (risk_level r) Safe); reflexivity.
Qed.

Lemma international_check_level number normalized r :
  risk_level (international_check number normalized r)
  = if international number normalized && risk_eqb (risk_level r) Safe
    then Caution else risk_level r.
Proof.
  unfold international_check, international.
  destruct (startswith number (py "+") || startswith normalized (py "010"));
    simpl; [|reflexivity].
  destruct (risk_eqb (risk_level r) Safe); reflexivity.
Qed.

Lemma known_scam_check_level db number r :
  risk_level (known_scam_check db number r)
  = if str_in number (known_scam_numbers db) then Danger else risk_level r.
Proof.
  unfold known_scam_check; destruct (str_in number (known_scam_numbers db));
    reflexivity.
Qed.

Lemma rule_chain_level db number normalized r :
  risk_level r = Safe ->
  risk_level (rule_chain db number normalized r)
  = if str_in number (known_scam_numbers db)
       || reported number (reported_cases db)
    then Danger
    else if existsb (startswith normalized) (suspicious_prefixes db)
            || existsb (fun p => re_match p number) (warning_patterns db)
            || international number normalized
    then Caution
    else Safe.
Proof.
  intros Hr; unfold rule_chain, safe_recommendations, add_details.
  match goal with
  | |- risk_level (if ?b then ?x else ?y) = _ =>
    replace (risk_level (if b then x else y)) with (risk_level y)
      by (destruct b; reflexivity)
  end.
  simpl.
  rewrite international_check_level.
  rewrite (mild_loop_level (pattern_check number)
             (fun p => re_match p number) _ (pattern_check_level number)).
  rewrite (mild_loop_level (prefix_check normalized)
             (startswith normalized) _ (prefix_check_level normalized)).
  rewrite reported_loop_level, known_scam_check_level, Hr.
  destruct (str_in number (known_scam_numbers db)),
    (reported number (reported_cases db)),
    (existsb (startswith normalized) (suspicious_prefixes db)),
    (existsb (fun p => re_match p number) (warning_patterns db)),
    (international number normalized); reflexivity.
Qed.

Section FurtherProperties.

Variable json_loads : str -> pyres json.
Variable format_value : json -> str.
Variable G : genai.

(** With the Gemini step off, a check that is not an emergency check
    returns the result of the rules and records it. *)
Lemma analyze_without_gemini st now number use_ai :
  ~ In (normalize number) emergency_numbers ->
  use_ai && ai_enabled st = false ->
  analyze_phone_number json_loads format_value G st now number use_ai
  = (Ok (basic_result st now number),
     append_history (basic_result st now number) st).
Proof.
  intros Hne Hoff; apply str_in_not_In in Hne.
  rewrite (analyze_other json_loads format_value G st now number use_ai Hne).
  unfold ai_check; rewrite Hoff; reflexivity.
Qed.

(** X1. Without the Gemini step, the level of a check that is not an
    emergency check is read off a table: danger when the input as typed is
    a known scam number or the number of a reported case; otherwise caution
    when the normalized input starts with a suspicious prefix, the input as
    typed matches a warning pattern, or the number is international;
    otherwise safe. *)
Theorem level_decision_table st now number use_ai :
  ~ In (normalize number) emergency_numbers ->
  use_ai && ai_enabled st = false ->
  exists r,
    analyze_phone_number json_loads format_value G st now number use_ai
    = (Ok r, append_history r st)
    /\ risk_level r
       = if str_in number (known_scam_numbers (scam_db st))
            || reported number (reported_cases (scam_db st))
         then Danger
         else if existsb (startswith (normalize number))
                   (suspicious_prefixes (scam_db st))
                 || existsb (fun p => re_match p number)
                      (warning_patterns (scam_db st))
                 || international number (normalize number)
         then Caution
         else Safe.
Proof.
  intros Hne Hoff.
  rewrite (analyze_without_gemini st now number use_ai Hne Hoff).
  eexists; split; [reflexivity|].
  unfold basic_result; apply rule_chain_level; reflexivity.
Qed.

End FurtherProperties.

(** ** What the rules keep of a result *)

Lemma extends_refl r : extends r r.
Proof.
  unfold extends; repeat split; exists []; symmetry; apply app_nil_r.
Qed.

Lemma extends_trans r1 r2 r3 : extends r1 r2 -> extends r2 r3 -> extends r1 r3.
Proof.
  intros (A1 & A2 & A3 & A4 & (ws & A5) & (ds & A6) & (rs & A7))
         (B1 & B2 & B3 & B4 & (ws' & B5) & (ds' & B6) & (rs' & B7)).
  unfold extends; repeat split; try congruence.
  - exists (ws ++ ws'); rewrite B5, A5, app_assoc; reflexivity.
  - exists (ds ++ ds'); rewrite B6, A6, app_assoc; reflexivity.
  - exists (rs ++ rs'); rewrite B7, A7, app_assoc; reflexivity.
Qed.

Lemma fold_left_invariant {B : Type} (Q : result -> Prop)
  (f : result -> B -> result) (l : list B) :
  (forall r b, Q r -> Q (f r b)) -> forall r, Q r -> Q (fold_left f l r).
Proof.
  intros Hf; induction l as [|b l IH]; intros r Hr; simpl; auto.
Qed.

Lemma fold_left_extends {B : Type} (f : result -> B -> result) (l : list B) :
  (forall r b, extends r (f r b)) -> forall r, extends r (fold_left f l r).
Proof.
  intros Hf; induction l as [|b l IH]; intros r; simpl;
    [apply extends_refl | eapply extends_trans; [apply Hf | apply IH]].
Qed.

Ltac open_rule :=
  cbv beta delta
    [known_scam_check reported_case_check prefix_check pattern_check
     international_check add_details safe_recommendations emergency_result];
  repeat (simpl;
          match goal with
          | |- context [if ?b then _ else _] => destruct b eqn:?
          end);
  simpl.

Ltac extends_rule :=
  intros; open_rule; unfold extends; simpl;
  repeat split;
  rewrite <- ?app_assoc;
  first [ eexists; reflexivity | exists []; symmetry; apply app_nil_r ].

Lemma known_scam_check_extends db number r :
  extends r (known_scam_check db number r).
Proof. extends_rule. Qed.

Lemma reported_case_check_extends number r c :
  extends r (reported_case_check number r c).
Proof. extends_rule. Qed.

Lemma prefix_check_extends normalized r prefix :
  extends r (prefix_check normalized r prefix).
Proof. extends_rule. Qed.

Lemma pattern_check_extends number r pattern :
  extends r (pattern_check number r pattern).
Proof. extends_rule. Qed.

Lemma international_check_extends number normalized r :
  extends r (international_check number normalized r).
Proof. extends_rule. Qed.

Lemma add_details_extends number normalized r :
  extends r (add_details number normalized r).
Proof. extends_rule. Qed.

Lemma safe_recommendations_extends r : extends r (safe_recommendations r).
Proof. extends_rule. Qed.

Lemma rule_chain_extends db number normalized r :
  extends r (rule_chain db number normalized r).
Proof.
  unfold rule_chain.
  eapply extends_trans; [|apply safe_recommendations_extends].
  eapply extends_trans; [|apply add_details_extends].
  eapply extends_trans; [|apply international_check_extends].
  eapply extends_trans;
    [|apply fold_left_extends; intros; apply pattern_check_extends].
  eapply extends_trans;
    [|apply fold_left_extends; intros; apply prefix_check_extends].
  eapply extends_trans;
    [|apply fold_left_extends; intros; apply reported_case_check_extends].
  apply known_scam_check_extends.
Qed.

Ltac quiet_rule :=
  intros (Hq1 & Hq2 & Hq3); open_rule; unfold quiet; simpl;
  (split;
   [ first [discriminate | exact Hq1]
   | split;
     [ first [ discriminate
             | exact Hq2
             | intros Hs; exfalso;
               match goal with
               | H : risk_eqb _ Safe = false |- _ =>
                 rewrite Hs in H; simpl in H; discriminate
               end ]
     | first [ exact Hq3
             | intros Habs; apply app_eq_nil in Habs; destruct Habs;
               discriminate ] ] ]).

Lemma known_scam_check_quiet db number r :
  quiet r -> quiet (known_scam_check db number r).
Proof. quiet_rule. Qed.

Lemma reported_case_check_quiet number r c :
  quiet r -> quiet (reported_case_check number r c).
Proof. quiet_rule. Qed.

Lemma prefix_check_quiet normalized r prefix :
  quiet r -> quiet (prefix_check normalized r prefix).
Proof. quiet_rule. Qed.

Lemma pattern_check_quiet number r pattern :
  quiet r -> quiet (pattern_check number r pattern).
Proof. quiet_rule. Qed.

Lemma international_check_quiet number normalized r :
  quiet r -> quiet (international_check number normalized r).
Proof. quiet_rule. Qed.

Lemma add_details_quiet number normalized r :
  quiet r -> quiet (add_details number normalized r).
Proof. quiet_rule. Qed.

Lemma basic_result_settled st now number :
  let b := basic_result st now number in
  risk_level b <> Emergency
  /\ (risk_level b = Safe <-> warnings b = [])
  /\ (risk_level b = Safe ->
      recommendations b = [py "✅ 特に問題は検出されませんでした";
                           py "💡 不審な要求には注意してください"]).
Proof.
  unfold basic_result, rule_chain.
  set (r0 := set_caller_type _ _).
  set (pre := add_details _ _ _).
  assert (Hpre : quiet pre).
  { unfold pre.
    apply add_details_quiet, international_check_quiet.
    apply (fold_left_invariant quiet (pattern_check number));
      [intros; apply pattern_check_quiet; assumption|].
    apply (fold_left_invariant quiet (prefix_check (normalize number)));
      [intros; apply prefix_check_quiet; assumption|].
    apply (fold_left_invariant quiet (reported_case_check number));
      [intros; apply reported_case_check_quiet; assumption|].
    apply known_scam_check_quiet.
    unfold quiet, r0; simpl; repeat split; auto; discriminate. }
  clearbody pre; destruct Hpre as (H1 & H2 & H3).
  unfold safe_recommendations.
  destruct (risk_eqb (risk_level pre) Safe) eqn:E; simpl.
  - apply risk_eqb_eq in E; destruct (H2 E) as [Hw Hr].
    repeat split; auto; try congruence.
    intros _; rewrite Hr; reflexivity.
  - assert (Hn : risk_level pre <> Safe)
      by (intros Hs; rewrite Hs in E; discriminate).
    repeat split; auto; intros; tauto.
Qed.

Section Outcomes.

Variable json_loads : str -> pyres json.
Variable format_value : json -> str.
Variable G : genai.

(** The three ways in which the Gemini step returns. *)
Lemma ai_check_shape st number use_ai r r' :
  ai_check json_loads format_value G st number use_ai r = Ok r' ->
  r' = r
  \/ (exists v, r' = set_ai_analysis v r)
  \/ (exists v w,
        r' = append_warning w (set_risk_level Danger (set_ai_analysis v r))
        /\ risk_level r <> Danger).
Proof.
  unfold ai_check.
  destruct (use_ai && ai_enabled st); simpl; [|intros [= <-]; auto].
  destruct (analyze_with_gemini json_loads G st number r) as [v|e]; simpl;
    [|discriminate].
  destruct (truthy v); [|intros [= <-]; auto].
  destruct v; simpl; try discriminate.
  destruct (lookup (py "ai_risk_assessment") items) as [a|]; simpl.
  - destruct (json_eq_str a (py "危険")); simpl.
    + destruct (risk_eqb (risk_level r) Danger) eqn:E; simpl.
      * intros [= <-]; right; left; eexists; reflexivity.
      * destruct (lookup (py "confidence_score") items); simpl;
          intros [= <-]; right; right; do 2 eexists;
          (split; [reflexivity|]);
          intros Hd; rewrite Hd in E; discriminate.
    + intros [= <-]; right; left; eexists; reflexivity.
  - intros [= <-]; right; left; eexists; reflexivity.
Qed.

Lemma ai_check_extends st number use_ai r r' :
  ai_check json_loads format_value G st number use_ai r = Ok r' ->
  extends r r'.
Proof.
  intros H; apply ai_check_shape in H.
  destruct H as [-> | [[v ->] | (v & w & -> & _)]].
  - apply extends_refl.
  - unfold extends; simpl; repeat split; exists []; symmetry; apply app_nil_r.
  - unfold extends; simpl; repeat split;
      first [eexists; reflexivity | exists []; symmetry; apply app_nil_r].
Qed.

(** X2. In the result of a check that is not an emergency check, the level
    is safe exactly when there is no warning, and a safe result carries the
    two closing recommendations and nothing else as recommendations. *)
Theorem safe_exactly_without_warning st now number use_ai r st' :
  ~ In (normalize number) emergency_numbers ->
  analyze_phone_number json_loads format_value G st now number use_ai
  = (Ok r, st') ->
  (risk_level r = Safe <-> warnings r = [])
  /\ (risk_level r = Safe ->
      recommendations r = [py "✅ 特に問題は検出されませんでした";
                           py "💡 不審な要求には注意してください"]).
Proof.
  intros Hne; apply str_in_not_In in Hne.
  rewrite (analyze_other json_loads format_value G st now number use_ai Hne).
  destruct (ai_check _ _ _ _ _ _ _) as [r1|e] eqn:Hai; [|discriminate].
  intros [= -> <-].
  destruct (basic_result_settled st now number) as (_ & Hiff & Hrec).
  apply ai_check_shape in Hai.
  destruct Hai as [-> | [[v ->] | (v & w & -> & _)]]; simpl.
  - split; assumption.
  - split; assumption.
  - split; [split|]; try discriminate.
    intros Habs; apply app_eq_nil in Habs; destruct Habs; discriminate.
Qed.

(** X3. A result that is returned names the input as typed, its
    normalized form and the time of the check, and its caller type is the
    one that [identify_caller_type] gives for the input: no rule changes
    them. *)
Theorem result_names_its_input st now number use_ai r st' :
  analyze_phone_number json_loads format_value G st now number use_ai
  = (Ok r, st') ->
  original r = number
  /\ normalized r = normalize number
  /\ timestamp r = now
  /\ caller_type r = Some (identify_caller_type number (normalize number)).
Proof.
  destruct (str_in (normalize number) emergency_numbers) eqn:He.
  - rewrite (analyze_emergency json_loads format_value G st now number use_ai He).
    intros [= <- _]; repeat split.
  - rewrite (analyze_other json_loads format_value G st now number use_ai He).
    destruct (ai_check _ _ _ _ _ _ _) as [r1|e] eqn:Hai; [|discriminate].
    intros [= -> _].
    apply ai_check_extends in Hai.
    pose proof (rule_chain_extends (scam_db st) number (normalize number)
                  (set_caller_type
                     (identify_caller_type number (normalize number))
                     (new_result number (normalize number) now))) as Hb.
    fold (basic_result st now number) in Hb.
    destruct (extends_trans _ _ _ Hb Hai) as (H1 & H2 & H3 & H4 & _).
    rewrite H1, H2, H3, H4; repeat split.
Qed.

End Outcomes.

(** ** Reports and additions, then a check *)

Lemma reported_loop_hit number cases c r :
  In c cases -> case_number c = number ->
  let r' := fold_left (reported_case_check number) cases r in
  In (py "⚠️ " ++ str_of_int (case_reports c) ++ py "件の通報あり") (warnings r')
  /\ In (py "通報内容: " ++ case_description c) (details r').
Proof.
  revert r; induction cases as [|c0 cases IH]; intros r Hin Hc; [destruct Hin|].
  destruct Hin as [-> | Hin]; [|apply (IH _ Hin Hc)].
  simpl.
  destruct (fold_left_extends (reported_case_check number) cases
              (reported_case_check_extends number)
              (reported_case_check number r c))
    as (_ & _ & _ & _ & (ws & Hw) & (ds & Hd) & _).
  rewrite Hw, Hd; unfold reported_case_check.
  rewrite Hc, str_eqb_refl; simpl.
  split; apply in_or_app; left; apply in_or_app; right; left; reflexivity.
Qed.

Lemma rule_chain_after_reports db number normalized r :
  extends (fold_left (reported_case_check number) (reported_cases db)
             (known_scam_check db number r))
          (rule_chain db number normalized r).
Proof.
  unfold rule_chain.
  eapply extends_trans; [|apply safe_recommendations_extends].
  eapply extends_trans; [|apply add_details_extends].
  eapply extends_trans; [|apply international_check_extends].
  eapply extends_trans;
    [|apply fold_left_extends; intros; apply pattern_check_extends].
  apply fold_left_extends; intros; apply prefix_check_extends.
Qed.

Lemma reported_In number cases :
  reported number cases = true <->
  exists c, In c cases /\ case_number c = number.
Proof.
  unfold reported; rewrite existsb_exists.
  split; intros (c & Hc & E); exists c; split; auto; apply str_eqb_eq; exact E.
Qed.

Lemma find_existing_Some n cases i :
  find_existing n cases = Some i ->
  exists l1 c l2,
    cases = l1 ++ c :: l2 /\ List.length l1 = i /\ case_number c = n
    /\ reported n l1 = false.
Proof.
  revert i; induction cases as [|c0 cases IH]; intros i; simpl; [discriminate|].
  destruct (str_eqb (case_number c0) n) eqn:E.
  - intros [= <-]; exists [], c0, cases; repeat split.
    apply str_eqb_eq; exact E.
  - destruct (find_existing n cases) as [j|]; simpl; [|discriminate].
    intros [= <-].
    destruct (IH j eq_refl) as (l1 & c & l2 & -> & Hl & Hc & Hn).
    exists (c0 :: l1), c, l2; repeat split; simpl; auto.
    rewrite E, Hn; reflexivity.
Qed.

Lemma find_existing_reported n cases :
  find_existing n cases = None <-> reported n cases = false.
Proof.
  induction cases as [|c cases IH]; simpl; [tauto|].
  destruct (str_eqb (case_number c) n); simpl; [split; discriminate|].
  rewrite <- IH; destruct (find_existing n cases); simpl; split;
    congruence.
Qed.

Lemma total_reports_app a b :
  total_reports (a ++ b) = (total_reports a + total_reports b)%N.
Proof.
  induction a as [|c a IH]; simpl; [reflexivity | rewrite IH; lia].
Qed.

(** The cases after a report with a number. *)
Lemma submit_report_cases st now n d cat :
  n <> [] ->
  let cases := reported_cases (scam_db st) in
  let cases' := reported_cases (scam_db (submit_report st now n d cat)) in
  (reported n cases = false
   /\ cases' = cases ++ [mkCase n (py "[" ++ cat ++ py "] " ++ d) now 1])
  \/ (exists l1 c l2,
        cases = l1 ++ c :: l2 /\ case_number c = n /\ reported n l1 = false
        /\ cases' = l1 ++ add_to_case d c :: l2).
Proof.
  intros Hn cases cases'; unfold cases', submit_report, report_form.
  destruct n as [|x n]; [congruence|]; simpl.
  fold cases.
  destruct (find_existing (x :: n) cases) as [i|] eqn:E.
  - right; destruct (find_existing_Some _ _ _ E) as (l1 & c & l2 & Hc & Hl & Hn' & Hr).
    exists l1, c, l2; repeat split; auto; simpl.
    rewrite Hc, <- Hl; apply update_case_middle.
  - left; split; [apply find_existing_reported; exact E | reflexivity].
Qed.

Section RoundTrips.

Variable json_loads : str -> pyres json.
Variable format_value : json -> str.
Variable G : genai.

(** X4. After a report for a number, given and not an emergency number,
    a check of that number (with a usable answer if the Gemini step runs)
    returns danger, and for a case of that number the result carries the
    warning with the count of the case and the detail with its
    description. *)
Theorem reported_number_is_danger st now1 now2 n d cat use_ai :
  n <> [] ->
  ~ In (normalize n) emergency_numbers ->
  let st1 := submit_report st now1 n d cat in
  gemini_answer_usable json_loads G st1 now2 n use_ai ->
  exists r c,
    analyze_phone_number json_loads format_value G st1 now2 n use_ai
    = (Ok r, append_history r st1)
    /\ risk_level r = Danger
    /\ In c (reported_cases (scam_db st1)) /\ case_number c = n
    /\ In (py "⚠️ " ++ str_of_int (case_reports c) ++ py "件の通報あり")
          (warnings r)
    /\ In (py "通報内容: " ++ case_description c) (details r).
Proof.
  intros Hn Hne st1 Hai; apply str_in_not_In in Hne.
  assert (Hc : exists c, In c (reported_cases (scam_db st1)) /\ case_number c = n).
  { destruct (submit_report_cases st now1 n d cat Hn)
      as [[_ E] | (l1 & c & l2 & _ & Hc & _ & E)]; fold st1 in E; rewrite E.
    - eexists; split; [apply in_or_app; right; left; reflexivity | reflexivity].
    - exists (add_to_case d c); split;
        [apply in_or_app; right; left; reflexivity | exact Hc]. }
  destruct Hc as (c & Hin & Hc).
  rewrite (analyze_other json_loads format_value G st1 now2 n use_ai Hne).
  destruct (ai_check_returns json_loads format_value G st1 n use_ai _ Hai)
    as [r Hr].
  rewrite Hr; exists r, c; split; [reflexivity|].
  pose proof (ai_check_escalates json_loads format_value G _ _ _ _ _ Hr)
    as [Hl _].
  destruct (ai_check_extends json_loads format_value G _ _ _ _ _ Hr)
    as (_ & _ & _ & _ & (ws & Hw) & (ds & Hd) & _).
  assert (Hb : risk_level (basic_result st1 now2 n) = Danger).
  { unfold basic_result; rewrite rule_chain_level by reflexivity.
    replace (reported n (reported_cases (scam_db st1))) with true
      by (symmetry; apply reported_In; exists c; auto).
    rewrite orb_true_r; reflexivity. }
  split; [destruct Hl as [-> | ->]; [exact Hb | reflexivity]|].
  repeat split; auto.
  - rewrite Hw; apply in_or_app; left.
    unfold basic_result.
    destruct (rule_chain_after_reports (scam_db st1) n (normalize n)
                (set_caller_type (identify_caller_type n (normalize n))
                   (new_result n (normalize n) now2)))
      as (_ & _ & _ & _ & (ws' & Hw') & _).
    rewrite Hw'; apply in_or_app; left.
    apply (reported_loop_hit n _ c _ Hin Hc).
  - rewrite Hd; apply in_or_app; left.
    unfold basic_result.
    destruct (rule_chain_after_reports (scam_db st1) n (normalize n)
                (set_caller_type (identify_caller_type n (normalize n))
                   (new_result n (normalize n) now2)))
      as (_ & _ & _ & _ & _ & (ds' & Hd') & _).
    rewrite Hd'; apply in_or_app; left.
    apply (reported_loop_hit n _ c _ Hin Hc).
Qed.

(** X5. After a number, given and not an emergency number, has been added
    on the database page, a check of that number (with a usable answer if
    the Gemini step runs) returns danger with the known-scam warning. *)
Theorem added_number_is_danger st now n use_ai :
  n <> [] ->
  ~ In (normalize n) emergency_numbers ->
  let st1 := add_scam_number st true n in
  gemini_answer_usable json_loads G st1 now n use_ai ->
  exists r,
    analyze_phone_number json_loads format_value G st1 now n use_ai
    = (Ok r, append_history r st1)
    /\ risk_level r = Danger
    /\ In (py "🚨 既知の詐欺電話番号です！") (warnings r).
Proof.
  intros Hn Hne st1 Hai; apply str_in_not_In in Hne.
  assert (Hin : In n (known_scam_numbers (scam_db st1))).
  { unfold st1, add_scam_number.
    destruct n as [|x n]; [congruence|]; simpl.
    destruct (str_in (x :: n) (known_scam_numbers (scam_db st))) eqn:E; simpl.
    - apply str_in_In; exact E.
    - apply in_or_app; right; left; reflexivity. }
  rewrite (analyze_other json_loads format_value G st1 now n use_ai Hne).
  destruct (ai_check_returns json_loads format_value G st1 n use_ai _ Hai)
    as [r Hr].
  rewrite Hr; exists r; split; [reflexivity|].
  destruct (ai_check_escalates json_loads format_value G _ _ _ _ _ Hr)
    as [Hl (ws & Hw)].
  destruct (basic_result_known_scam st1 now n Hin) as [Hd Hin'].
  split.
  - destruct Hl as [-> | ->]; [exact Hd | reflexivity].
  - rewrite Hw; apply in_or_app; left; exact Hin'.
Qed.

End RoundTrips.

(** ** Bookkeeping of the forms *)

Lemma reported_middle n l1 c l2 :
  case_number c = n -> reported n (l1 ++ c :: l2) = true.
Proof.
  intros Hc; apply reported_In; exists c; split;
    [apply in_or_app; right; left; reflexivity | exact Hc].
Qed.

(** X6. A submitted report with a number raises the sum of the report
    counts by exactly one, and it adds the number at the end of the case
    numbers when no case had it, leaving them as they are otherwise; a
    report without a number changes no case.  The history and the known
    scam numbers are not touched. *)
Theorem report_bookkeeping st now n d cat :
  let st' := submit_report st now n d cat in
  total_reports (reported_cases (scam_db st'))
  = (total_reports (reported_cases (scam_db st))
     + match n with [] => 0 | _ :: _ => 1 end)%N
  /\ map case_number (reported_cases (scam_db st'))
     = match n with
       | [] => map case_number (reported_cases (scam_db st))
       | _ :: _ =>
         if reported n (reported_cases (scam_db st))
         then map case_number (reported_cases (scam_db st))
         else map case_number (reported_cases (scam_db st)) ++ [n]
       end
  /\ check_history st' = check_history st
  /\ known_scam_numbers (scam_db st') = known_scam_numbers (scam_db st).
Proof.
  intros st'.
  assert (Hrest : check_history st' = check_history st
                  /\ known_scam_numbers (scam_db st')
                     = known_scam_numbers (scam_db st)).
  { unfold st', submit_report, report_form.
    destruct n; simpl; [split; reflexivity|].
    destruct (find_existing _ _); split; reflexivity. }
  destruct n as [|x n].
  - unfold st', submit_report, report_form; simpl.
    repeat split; lia.
  - destruct (submit_report_cases st now (x :: n) d cat) as
      [[Hr E] | (l1 & c & l2 & Hc & Hn & Hr & E)]; [discriminate | |];
      fold st' in E; rewrite E.
    + rewrite Hr, total_reports_app, map_app; simpl.
      repeat split; try apply Hrest; lia.
    + rewrite Hc, (reported_middle _ l1 c l2 Hn), !total_reports_app, !map_app.
      simpl; repeat split; try apply Hrest; lia.
Qed.

Lemma NoDup_snoc {A : Type} (l : list A) (a : A) :
  NoDup l -> ~ In a l -> NoDup (l ++ [a]).
Proof.
  induction 1 as [|b l Hb Hl IH]; intros Ha; simpl.
  - constructor; [intros [] | constructor].
  - constructor.
    + intros Hin; apply in_app_or in Hin as [Hin | [<- | []]];
        [exact (Hb Hin) | apply Ha; left; reflexivity].
    + apply IH; intros Hin; apply Ha; right; exact Hin.
Qed.

Lemma add_scam_number_known st n :
  known_scam_numbers (scam_db (add_scam_number st true n))
  = if match n with [] => false | _ :: _ => true end
       && negb (str_in n (known_scam_numbers (scam_db st)))
    then known_scam_numbers (scam_db st) ++ [n]
    else known_scam_numbers (scam_db st).
Proof.
  unfold add_scam_number.
  destruct (_ && _); reflexivity.
Qed.

Lemma add_scam_number_listed st n :
  str_in n (known_scam_numbers (scam_db st)) = true ->
  add_scam_number st true n = st.
Proof.
  intros H; unfold add_scam_number; rewrite H, andb_false_r; reflexivity.
Qed.

(** X7. Adding a number on the database page twice is the same as adding
    it once, no number already known is lost, and a list of known numbers
    without repetition stays without repetition. *)
Theorem add_scam_number_keeps_list st n :
  let st' := add_scam_number st true n in
  add_scam_number st' true n = st'
  /\ incl (known_scam_numbers (scam_db st)) (known_scam_numbers (scam_db st'))
  /\ (NoDup (known_scam_numbers (scam_db st)) ->
      NoDup (known_scam_numbers (scam_db st')))
  /\ reported_cases (scam_db st') = reported_cases (scam_db st)
  /\ check_history st' = check_history st.
Proof.
  intros st'.
  pose proof (add_scam_number_known st n) as Hk; fold st' in Hk.
  assert (Hframe : reported_cases (scam_db st') = reported_cases (scam_db st)
                   /\ check_history st' = check_history st).
  { unfold st', add_scam_number; destruct (_ && _); split; reflexivity. }
  destruct n as [|x n]; [repeat split; auto using incl_refl; apply Hframe|].
  destruct (str_in (x :: n) (known_scam_numbers (scam_db st))) eqn:E.
  - replace st' with st
      by (symmetry; apply add_scam_number_listed; exact E).
    rewrite (add_scam_number_listed st (x :: n) E).
    repeat split; auto using incl_refl.
  - change (known_scam_numbers (scam_db st')
            = known_scam_numbers (scam_db st) ++ [x :: n]) in Hk.
    split; [|split; [|split; [|exact Hframe]]].
    + apply add_scam_number_listed; rewrite Hk.
      apply str_in_In, in_or_app; right; left; reflexivity.
    + rewrite Hk; apply incl_appl, incl_refl.
    + intros Hnd; rewrite Hk; apply str_in_not_In in E.
      apply NoDup_snoc; assumption.
Qed.

(** ** Sessions reached from a fresh one *)

Lemma submit_report_without_number st now d cat :
  submit_report st now [] d cat = st.
Proof. reflexivity. Qed.

Lemma submit_report_frame st now n d cat :
  let st' := submit_report st now n d cat in
  check_history st' = check_history st
  /\ known_scam_numbers (scam_db st') = known_scam_numbers (scam_db st)
  /\ suspicious_prefixes (scam_db st') = suspicious_prefixes (scam_db st)
  /\ warning_patterns (scam_db st') = warning_patterns (scam_db st)
  /\ gemini_api_key st' = gemini_api_key st
  /\ ai_enabled st' = ai_enabled st.
Proof.
  unfold submit_report, report_form.
  destruct n; simpl; [repeat split|].
  destruct (find_existing _ _); repeat split.
Qed.

Lemma submit_report_total st now n d cat :
  n <> [] ->
  total_reports (reported_cases (scam_db (submit_report st now n d cat)))
  = (total_reports (reported_cases (scam_db st)) + 1)%N.
Proof.
  intros Hn.
  destruct (submit_report_cases st now n d cat Hn) as
    [[_ E] | (l1 & c & l2 & Hc & _ & _ & E)]; rewrite E.
  - rewrite total_reports_app; simpl; lia.
  - rewrite Hc, !total_reports_app; simpl; lia.
Qed.

Lemma reported_false_map n cases :
  reported n cases = false -> ~ In n (map case_number cases).
Proof.
  intros H Hin; apply in_map_iff in Hin as (c & Hc & Hin).
  assert (reported n cases = true) by (apply reported_In; eauto).
  congruence.
Qed.

Lemma submit_report_well_kept st now n d cat :
  well_kept st -> well_kept (submit_report st now n d cat).
Proof.
  intros (H1 & H2 & H3 & H4 & H5 & H6).
  destruct (submit_report_frame st now n d cat) as (F1 & F2 & F3 & F4 & _).
  destruct n as [|x n]; [repeat split; assumption|].
  unfold well_kept; rewrite F1, F2, F3, F4.
  repeat split; try assumption.
  - destruct (submit_report_cases st now (x :: n) d cat) as
      [[Hr E] | (l1 & c & l2 & Hc & Hn & Hr & E)]; [discriminate | |];
      rewrite E.
    + rewrite map_app; apply NoDup_snoc;
        [exact H3 | apply reported_false_map; exact Hr].
    + rewrite Hc in H3; rewrite map_app in *; exact H3.
  - destruct (submit_report_cases st now (x :: n) d cat) as
      [[Hr E] | (l1 & c & l2 & Hc & Hn & Hr & E)]; [discriminate | |];
      rewrite E.
    + apply Forall_app; split; [exact H4|].
      repeat constructor; simpl; [lia | discriminate].
    + rewrite Hc in H4; apply Forall_app in H4 as [Ha Hb].
      apply Forall_app; split; [exact Ha|].
      inversion Hb as [|? ? [Hc1 Hc2] Hl2]; subst.
      constructor; [|exact Hl2].
      split; simpl; [lia | exact Hc2].
Qed.

Lemma add_scam_number_well_kept st n :
  well_kept st -> well_kept (add_scam_number st true n).
Proof.
  intros (H1 & H2 & H3 & H4 & H5 & H6).
  pose proof (add_scam_number_known st n) as Hk.
  unfold well_kept; rewrite Hk.
  unfold add_scam_number.
  destruct (match n with [] => false | _ :: _ => true end
            && negb (str_in n (known_scam_numbers (scam_db st)))) eqn:E;
    simpl; repeat split; try assumption.
  apply andb_true_iff in E as [_ E]; apply negb_true_iff, str_in_not_In in E.
  apply NoDup_snoc; assumption.
Qed.

Lemma count_levels history :
  Forall (fun r => risk_level r <> Emergency) history ->
  List.length history
  = count_level Danger history + count_level Caution history
    + count_level Safe history.
Proof.
  unfold count_level.
  induction 1 as [|r history Hr _ IH]; simpl; [reflexivity|].
  destruct (risk_level r); simpl; try congruence; lia.
Qed.

Section Sessions.

Variable json_loads : str -> pyres json.
Variable format_value : json -> str.

(** The three outcomes of a check. *)
Lemma analyze_outcomes G st now number use_ai :
  (exists r, analyze_phone_number json_loads format_value G st now number
               use_ai = (Ok r, st)
             /\ risk_level r = Emergency)
  \/ (exists r, analyze_phone_number json_loads format_value G st now number
                  use_ai = (Ok r, append_history r st)
                /\ risk_level r <> Emergency)
  \/ (exists e, analyze_phone_number json_loads format_value G st now number
                  use_ai = (Raise e, st)).
Proof.
  destruct (str_in (normalize number) emergency_numbers) eqn:He.
  - left; rewrite (analyze_emergency json_loads format_value G st now number
                     use_ai He).
    eexists; split; reflexivity.
  - right.
    rewrite (analyze_other json_loads format_value G st now number use_ai He).
    destruct (ai_check _ _ _ _ _ _ _) as [r|e] eqn:Hai;
      [left | right; eexists; reflexivity].
    exists r; split; [reflexivity|].
    pose proof (basic_result_level st now number) as Hb.
    destruct (ai_check_escalates json_loads format_value G _ _ _ _ _ Hai)
      as [[E | E] _]; rewrite E; [exact Hb | discriminate].
Qed.

(** X8. A check changes nothing of the session but the history, and the
    history either stays as it is or receives the returned result at its
    end: no earlier record is changed or removed. *)
Theorem check_only_extends_history G st now number use_ai :
  let out := analyze_phone_number json_loads format_value G st now number
               use_ai in
  scam_db (snd out) = scam_db st
  /\ gemini_api_key (snd out) = gemini_api_key st
  /\ ai_enabled (snd out) = ai_enabled st
  /\ (check_history (snd out) = check_history st
      \/ exists r, fst out = Ok r
                   /\ check_history (snd out) = check_history st ++ [r]).
Proof.
  destruct (analyze_outcomes G st now number use_ai)
    as [(r & E & _) | [(r & E & _) | (e & E)]]; rewrite E; simpl;
    repeat split; auto.
  right; exists r; split; reflexivity.
Qed.

Lemma check_button_well_kept G st now phone_input :
  well_kept st -> well_kept (check_button json_loads format_value G st now
                               phone_input).
Proof.
  intros Hw; unfold check_button.
  destruct phone_input as [|x s]; [exact Hw|].
  destruct (analyze_outcomes G st now (x :: s) (ai_enabled st))
    as [(r & E & _) | [(r & E & Hr) | (e & E)]]; rewrite E; simpl;
    try exact Hw.
  destruct Hw as (H1 & H2 & H3 & H4 & H5 & H6).
  unfold well_kept; simpl; repeat split; try assumption.
  apply Forall_app; split; [exact H1 | repeat constructor; exact Hr].
Qed.

Lemma handle_well_kept st a :
  well_kept st -> well_kept (handle json_loads format_value st a).
Proof.
  intros Hw; destruct a; simpl.
  - apply check_button_well_kept; exact Hw.
  - apply submit_report_well_kept; exact Hw.
  - apply add_scam_number_well_kept; exact Hw.
  - destruct Hw as (_ & H); unfold well_kept; simpl; split; [constructor|exact H].
Qed.

Lemma run_well_kept actions st :
  well_kept st -> well_kept (run json_loads format_value actions st).
Proof.
  unfold run; revert st; induction actions as [|a actions IH]; intros st Hw;
    simpl; [exact Hw | apply IH, handle_well_kept, Hw].
Qed.

Lemma fresh_well_kept key enabled :
  well_kept (mkSession [] initial_scam_database key enabled).
Proof.
  unfold well_kept; simpl.
  split; [constructor|].
  split; [|split; [constructor | split; [constructor | split; reflexivity]]].
  repeat (constructor;
          [ intros H;
            repeat (destruct H as [H|H]; [vm_compute in H; discriminate|]);
            destruct H
          | ]).
  constructor.
Qed.

(** X9. Whatever checks, reports, additions of scam numbers and clearings
    of the history are made from a fresh session, with the Gemini step on
    or off: no record of the history has the level emergency, the known
    scam numbers hold no number twice, no two cases have the same number,
    every case has a number and a count of at least one, and the
    suspicious prefixes and warning patterns are the shipped ones. *)
Theorem reachable_sessions_are_well_kept key enabled actions :
  well_kept (run json_loads format_value actions
               (mkSession [] initial_scam_database key enabled)).
Proof. apply run_well_kept, fresh_well_kept. Qed.

(** X10. In every session reached from a fresh one the three counts of
    [show_stats] add up to its total: every recorded check is counted as
    dangerous, as a warning or as safe. *)
Theorem stats_add_up key enabled actions :
  let s := show_stats (run json_loads format_value actions
                         (mkSession [] initial_scam_database key enabled)) in
  total s = dangerous s + warning s + safe s.
Proof.
  simpl; apply count_levels.
  apply (run_well_kept actions _ (fresh_well_kept key enabled)).
Qed.

End Sessions.

(** ** The Gemini step in a check *)

(** The rules leave the Gemini analysis alone. *)
Lemma rule_chain_ai_analysis db number normalized r :
  ai_analysis (rule_chain db number normalized r) = ai_analysis r.
Proof.
  unfold rule_chain.
  transitivity
    (ai_analysis
       (fold_left (pattern_check number) (warning_patterns db)
          (fold_left (prefix_check normalized) (suspicious_prefixes db)
             (fold_left (reported_case_check number) (reported_cases db)
                (known_scam_check db number r))))).
  { open_rule; reflexivity. }
  apply (fold_left_invariant (fun x => ai_analysis x = ai_analysis r));
    [intros; open_rule; assumption|].
  apply (fold_left_invariant (fun x => ai_analysis x = ai_analysis r));
    [intros; open_rule; assumption|].
  apply (fold_left_invariant (fun x => ai_analysis x = ai_analysis r));
    [intros; open_rule; assumption|].
  open_rule; reflexivity.
Qed.

Section Gemini.

Variable json_loads : str -> pyres json.
Variable format_value : json -> str.
Variable G : genai.

Lemma setup_gemini_returns st :
  raises_only_Exception G -> exists ready, setup_gemini G st = Ok ready.
Proof.
  intros (Hc & _); unfold setup_gemini.
  destruct (_ && _); [|eauto].
  destruct (configure G (gemini_api_key st)) as [[]|e] eqn:E; simpl; [eauto|].
  rewrite (Hc _ _ E); eauto.
Qed.

(** X11. With a client that raises nothing but exceptions derived from
    [Exception], the two adapters never raise, whatever [json.loads] does:
    each returns a value, [None] included. *)
Theorem adapters_never_raise st number basic conversation_text :
  raises_only_Exception G ->
  (exists v, analyze_with_gemini json_loads G st number basic = Ok v)
  /\ (exists v, analyze_conversation_with_gemini json_loads G st
                  conversation_text = Ok v).
Proof.
  intros HG; destruct (setup_gemini_returns st HG) as [ready Hs].
  destruct HG as (_ & Hm & Hg & Ht).
  unfold analyze_with_gemini, analyze_conversation_with_gemini.
  rewrite Hs; simpl.
  destruct ready; simpl; [|eauto].
  destruct (GenerativeModel G "gemini-pro") as [[]|e] eqn:Em; simpl.
  2: { rewrite (Hm _ _ Em); eauto. }
  split.
  - destruct (caller_type basic) as [c|]; simpl; [|eauto].
    destruct (generate_content G _) as [answer|e] eqn:Eg; simpl.
    2: { rewrite (Hg _ _ Eg); eauto. }
    destruct (text answer) as [t|e] eqn:Et; simpl.
    + destruct (json_loads t); simpl; eauto.
    + rewrite (Ht _ _ _ Eg Et); eauto.
  - destruct (generate_content G _) as [answer|e] eqn:Eg; simpl.
    2: { rewrite (Hg _ _ Eg); eauto. }
    destruct (text answer) as [t|e] eqn:Et; simpl.
    + destruct (json_loads t); simpl; eauto.
    + rewrite (Ht _ _ _ Eg Et); eauto.
Qed.

(** X12. When the Gemini step is on and every request of the client fails
    with an exception derived from [Exception], a check that is not an
    emergency check still returns: its result is the result of the rules,
    without Gemini analysis, and it is recorded. *)
Theorem failed_request_keeps_basic_result st now number :
  ~ In (normalize number) emergency_numbers ->
  ai_enabled st = true ->
  raises_only_Exception G ->
  (forall p, exists e, generate_content G p = Raise e) ->
  analyze_phone_number json_loads format_value G st now number true
  = (Ok (basic_result st now number),
     append_history (basic_result st now number) st)
  /\ ai_analysis (basic_result st now number) = JNull.
Proof.
  intros Hne Hen HG Hfail; apply str_in_not_In in Hne.
  rewrite (analyze_other json_loads format_value G st now number true Hne).
  assert (Hnull : analyze_with_gemini json_loads G st number
                    (basic_result st now number) = Ok JNull).
  { destruct (setup_gemini_returns st HG) as [ready Hs].
    destruct HG as (_ & Hm & Hg & _).
    unfold analyze_with_gemini; rewrite Hs; simpl.
    destruct ready; simpl; [|reflexivity].
    destruct (GenerativeModel G "gemini-pro") as [[]|e] eqn:Em; simpl.
    2: { rewrite (Hm _ _ Em); reflexivity. }
    destruct (caller_type (basic_result st now number)) as [c|]; simpl;
      [|reflexivity].
    destruct (Hfail (build_number_prompt number (basic_result st now number) c))
      as [e Ee].
    rewrite Ee; simpl; rewrite (Hg _ _ Ee); reflexivity. }
  unfold ai_check; rewrite Hen, Hnull; simpl.
  split; [reflexivity|].
  unfold basic_result; rewrite rule_chain_ai_analysis; reflexivity.
Qed.

Lemma basic_result_caller_type st now number :
  caller_type (basic_result st now number)
  = Some (identify_caller_type number (normalize number)).
Proof.
  unfold basic_result.
  destruct (rule_chain_extends (scam_db st) number (normalize number)
              (set_caller_type (identify_caller_type number (normalize number))
                 (new_result number (normalize number) now)))
    as (_ & _ & _ & H & _).
  exact H.
Qed.

(** X13. When the Gemini step is on and the model answers every prompt
    with a text that [json.loads] refuses, a check that is not an
    emergency check returns the result of the rules, with the same level,
    warnings, details and recommendations, and with the fallback record,
    whose summary is the first 200 characters of the text, as its Gemini
    analysis. *)
Theorem unparsable_answer_keeps_basic_result st now number answer t e :
  ~ In (normalize number) emergency_numbers ->
  ai_enabled st = true ->
  setup_gemini G st = Ok true ->
  GenerativeModel G "gemini-pro" = Ok tt ->
  (forall p, generate_content G p = Ok answer) ->
  text answer = Ok t ->
  json_loads t = Raise e ->
  let r := set_ai_analysis (number_fallback (firstn 200 t))
             (basic_result st now number) in
  analyze_phone_number json_loads format_value G st now number true
  = (Ok r, append_history r st).
Proof.
  intros Hne Hen Hs Hm Hg Ht Hl r; apply str_in_not_In in Hne.
  rewrite (analyze_other json_loads format_value G st now number true Hne).
  unfold ai_check, analyze_with_gemini.
  rewrite Hen, Hs; simpl.
  rewrite Hm, basic_result_caller_type; simpl.
  rewrite Hg; simpl; rewrite Ht; simpl; rewrite Hl; simpl.
  reflexivity.
Qed.

(** X14. When the Gemini step is on and the adapter returns a non-empty
    object, a check that is not an emergency check returns and stores the
    object as its Gemini analysis.  The level is danger when the field
    ai_risk_assessment of the object is the text for danger and the level
    of the rules otherwise; the Gemini warning, with the confidence score
    of the object or 0, is added exactly when that field says danger and
    the rules had not reached danger. *)
Theorem gemini_verdict st now number items :
  ~ In (normalize number) emergency_numbers ->
  ai_enabled st = true ->
  items <> [] ->
  analyze_with_gemini json_loads G st number (basic_result st now number)
  = Ok (JDict items) ->
  let b := basic_result st now number in
  let verdict := match lookup (py "ai_risk_assessment") items with
                 | Some a => json_eq_str a (py "危険")
                 | None => false
                 end in
  let score := match lookup (py "confidence_score") items with
               | Some x => x
               | None => JInt 0
               end in
  exists r,
    analyze_phone_number json_loads format_value G st now number true
    = (Ok r, append_history r st)
    /\ ai_analysis r = JDict items
    /\ risk_level r = (if verdict then Danger else risk_level b)
    /\ warnings r
       = warnings b
         ++ (if verdict && negb (risk_eqb (risk_level b) Danger)
             then [py "🤖 AI判定: 危険 (信頼度 " ++ format_value score
                   ++ py "%)"]
             else []).
Proof.
  intros Hne Hen Hi Hv b verdict score; apply str_in_not_In in Hne.
  rewrite (analyze_other json_loads format_value G st now number true Hne).
  assert (Ht : truthy (JDict items) = true)
    by (destruct items; [congruence | reflexivity]).
  unfold ai_check; rewrite Hen, Hv; cbn [andb bind]; rewrite Ht; fold b.
  unfold json_get; subst verdict score.
  destruct (lookup (py "ai_risk_assessment") items) as [a|];
    destruct (lookup (py "confidence_score") items) as [x|];
    cbn [bind];
    try destruct (json_eq_str a (py "危険"));
    destruct (risk_eqb (risk_level b) Danger) eqn:Ed;
    try apply risk_eqb_eq in Ed;
    simpl; rewrite ?Ed; simpl;
    eexists; (split; [reflexivity|]); simpl;
    rewrite ?app_nil_r; repeat split; auto.
Qed.

End Gemini.

(** X15. With the Gemini step off, by the argument of the call or by the
    flag of the session, the outcome of a check and the session it leaves
    do not depend on the client, on [json.loads] or on the formatting of
    values: Gemini is not consulted. *)
Theorem gemini_off_is_not_consulted
  (loads loads' : str -> pyres json) (fmt fmt' : json -> str) (G G' : genai)
  st now number use_ai :
  use_ai && ai_enabled st = false ->
  analyze_phone_number loads fmt G st now number use_ai
  = analyze_phone_number loads' fmt' G' st now number use_ai.
Proof.
  intros Hoff.
  destruct (str_in (normalize number) emergency_numbers) eqn:He.
  - rewrite !analyze_emergency by exact He; reflexivity.
  - apply str_in_not_In in He.
    rewrite !analyze_without_gemini by assumption; reflexivity.
Qed.

(** ** Caller types *)

Ltac caller_cases :=
  unfold identify_caller_type;
  repeat match goal with
         | |- context [match first_prefix ?n ?t with _ => _ end] =>
           destruct (first_prefix n t) eqn:?
         | |- context [if ?b then _ else _] => destruct b eqn:?
         end;
  simpl.

Lemma startswith_010 s :
  startswith s (py "0") = false -> startswith s (py "010") = false.
Proof.
  intros H; destruct (startswith s (py "010")) eqn:E; [|reflexivity].
  rewrite (startswith_trans s (py "010") (py "0") E) in H;
    [discriminate | reflexivity].
Qed.

(** X16. The caller type is "international call" exactly when the input
    as typed starts with a plus sign.  An input whose normalized form
    starts with 010 and that has no plus sign in front is therefore not
    given that type, although the check gives it the international
    warning. *)
Theorem international_caller_type number :
  (type_ (identify_caller_type number (normalize number)) = py "国際電話"
   <-> startswith number (py "+") = true)
  /\ forall st now,
       startswith (normalize number) (py "010") = true ->
       In (py "🌍 国際電話です") (warnings (basic_result st now number)).
Proof.
  split.
  - split.
    + caller_cases; intros H; try (vm_compute in H; discriminate).
      match goal with
      | H1 : startswith (normalize number) (py "0") = false,
        H2 : _ || _ = true |- _ =>
        rewrite (startswith_010 _ H1), orb_false_r in H2; exact H2
      end.
    + intros H; apply startswith_prefix in H as [t ->].
      change (py "+" ++ t) with (43%N :: t).
      change (normalize (43%N :: t)) with (43%N :: normalize t).
      generalize (normalize t); intros nt.
      vm_compute; reflexivity.
  - intros st now H; apply basic_result_international.
    rewrite H; apply orb_true_r.
Qed.

Lemma emergency_caller_type number normalized :
  type_ (identify_caller_type number normalized) = py "緊急通報番号"
  <-> str_in normalized emergency_numbers = true.
Proof.
  split.
  - caller_cases; intros H; try (vm_compute in H; discriminate); reflexivity.
  - intros H; unfold identify_caller_type; rewrite H; reflexivity.
Qed.

Section CallerTypes.

Variable json_loads : str -> pyres json.
Variable format_value : json -> str.
Variable G : genai.

(** X17. A returned result has the level emergency exactly when its
    caller type is the emergency type: the test of the level and the test
    of [identify_caller_type] agree on every input. *)
Theorem emergency_level_and_caller_type_agree st now number use_ai r st' :
  analyze_phone_number json_loads format_value G st now number use_ai
  = (Ok r, st') ->
  (risk_level r = Emergency
   <-> option_map type_ (caller_type r) = Some (py "緊急通報番号")).
Proof.
  destruct (str_in (normalize number) emergency_numbers) eqn:He.
  - rewrite (analyze_emergency json_loads format_value G st now number use_ai He).
    intros [= <- _]; simpl.
    split; [intros _ | reflexivity].
    f_equal; apply emergency_caller_type; exact He.
  - rewrite (analyze_other json_loads format_value G st now number use_ai He).
    destruct (ai_check _ _ _ _ _ _ _) as [r1|e] eqn:Hai; [|discriminate].
    intros [= -> _].
    pose proof (basic_result_level st now number) as Hb.
    destruct (ai_check_escalates json_loads format_value G _ _ _ _ _ Hai)
      as [Hl _].
    destruct (ai_check_extends json_loads format_value G _ _ _ _ _ Hai)
      as (_ & _ & _ & Hc & _).
    rewrite Hc, basic_result_caller_type; simpl.
    split.
    + intros E; destruct Hl as [Hl | Hl]; rewrite Hl in E;
        [contradiction | discriminate].
    + intros [= E]; apply emergency_caller_type in E; congruence.
Qed.

End CallerTypes.

(** ** Prefixes, patterns and normalization *)

Lemma startswith_In s p c : startswith s p = true -> In c p -> In c s.
Proof.
  intros H Hc; apply startswith_prefix in H as [t ->].
  apply in_or_app; left; exact Hc.
Qed.

(** X18. A suspicious prefix that contains a hyphen, a white space
    character or a parenthesis is never found at the start of a normalized
    number: for such a prefix, as the shipped +1-876, the prefix rule leaves
    every result as it is. *)
Theorem prefix_with_separator_never_matches prefix number r :
  existsb is_separator prefix = true ->
  startswith (normalize number) prefix = false
  /\ prefix_check (normalize number) r prefix = r.
Proof.
  intros H; apply existsb_exists in H as (c & Hc & Hs).
  assert (E : startswith (normalize number) prefix = false).
  { destruct (startswith (normalize number) prefix) eqn:E; [|reflexivity].
    pose proof (startswith_In _ _ c E Hc) as Hin.
    pose proof (strip_separators_clean number) as Hclean.
    rewrite Forall_forall in Hclean; apply Hclean in Hin; congruence. }
  split; [exact E | unfold prefix_check; rewrite E; reflexivity].
Qed.

(** X19. Normalization works piece by piece: the normalized form of a
    concatenation is the concatenation of the normalized forms; it is empty
    exactly for an input made of separators only, and never longer than the
    input. *)
Theorem normalize_piecewise a b :
  normalize (a ++ b) = normalize a ++ normalize b
  /\ (normalize a = [] <-> forallb is_separator a = true)
  /\ List.length (normalize a) <= List.length a.
Proof.
  unfold normalize; split; [apply strip_separators_app|]; split.
  - induction a as [|c a IH]; simpl; [tauto|].
    destruct (is_separator c); simpl; [exact IH | split; discriminate].
  - induction a as [|c a IH]; simpl; [lia|].
    destruct (is_separator c); simpl; lia.
Qed.

(** ** The shipped patterns *)

Lemma match_from_RNone b s : match_from b RNone s = false.
Proof. revert b; induction s as [|c s IH]; intros b; simpl; auto. Qed.

Lemma match_from_RAlt b r1 r2 s :
  match_from b (RAlt r1 r2) s = match_from b r1 s || match_from b r2 s.
Proof.
  revert b r1 r2; induction s as [|c s IH]; intros b r1 r2; simpl.
  - rewrite !orb_false_r; reflexivity.
  - rewrite IH.
    destruct (nullable b r1), (nullable b r2),
      (match_from false (deriv b c r1) s); reflexivity.
Qed.

Lemma match_from_seq_RNone b r s : match_from b (RSeq RNone r) s = false.
Proof.
  revert b; induction s as [|c s IH]; intros b; simpl; [reflexivity|].
  rewrite match_from_RAlt, IH, match_from_RNone; reflexivity.
Qed.

Lemma match_from_seq_REps r s :
  match_from false (RSeq REps r) s = match_from false r s.
Proof.
  destruct s as [|c s]; simpl; [reflexivity|].
  rewrite match_from_RAlt, match_from_seq_RNone; reflexivity.
Qed.

(** After the first character [x] of the subject, a pattern that begins
    with the character [c]. *)
Lemma match_after_char b c r x s :
  match_from false (deriv b x (RSeq (RChar c) r)) s
  = (x =? c)%N && match_from false r s.
Proof.
  simpl; rewrite match_from_RAlt, match_from_RNone, orb_false_r.
  destruct (x =? c)%N;
    [apply match_from_seq_REps | apply match_from_seq_RNone].
Qed.

Lemma match_from_literal p s : match_from false (literal p) s = startswith s p.
Proof.
  revert s; induction p as [|c p IH]; intros s.
  - destruct s; reflexivity.
  - destruct s as [|x s]; [reflexivity|].
    change (match_from false (literal (c :: p)) (x :: s))
      with (match_from false (deriv false x (RSeq (RChar c) (literal p))) s).
    rewrite match_after_char, IH; reflexivity.
Qed.

(** [^] followed by a literal text is a test of prefix. *)
Lemma re_match_anchored_literal p s :
  re_match (RSeq RBol (literal p)) s = startswith s p.
Proof.
  unfold re_match; destruct p as [|c p].
  - destruct s; reflexivity.
  - destruct s as [|x s]; [reflexivity|].
    change (match_from true (RSeq RBol (literal (c :: p))) (x :: s))
      with (match_from false
              (RAlt (RSeq RNone (literal (c :: p)))
                    (deriv true x (RSeq (RChar c) (literal p)))) s).
    rewrite match_from_RAlt, match_from_seq_RNone, match_after_char,
      match_from_literal; reflexivity.
Qed.

(** X20. The four shipped warning patterns are tests of prefix on the
    input as typed: they match exactly the inputs that start with 0120,
    0570, 0990 and with a plus sign. *)
Theorem shipped_patterns_are_prefix_tests number :
  map (fun pattern => re_match pattern number)
      (warning_patterns initial_scam_database)
  = [ startswith number (py "0120"); startswith number (py "0570");
      startswith number (py "0990"); startswith number (py "+") ].
Proof.
  unfold initial_scam_database; cbn [warning_patterns map].
  rewrite !re_match_anchored_literal.
  do 3 f_equal.
  unfold re_match; destruct number as [|x s]; [reflexivity|].
  change (match_from true (RSeq RBol (RSeq (RChar 43%N) (RStar RAny))) (x :: s))
    with (match_from false
            (RAlt (RSeq RNone (RSeq (RChar 43%N) (RStar RAny)))
                  (deriv true x (RSeq (RChar 43%N) (RStar RAny)))) s).
  rewrite match_from_RAlt, match_from_seq_RNone, match_after_char.
  destruct s; simpl; rewrite ?andb_true_r; reflexivity.
Qed.

(** ** The lists of the pages *)

Lemma last_n_rev {A : Type} n (l : list A) : rev (last_n n l) = firstn n (rev l).
Proof. unfold last_n; symmetry; apply firstn_rev. Qed.

Lemma page_after_append {A : Type} n (l : list A) (a : A) :
  rev (last_n (S n) (l ++ [a])) = a :: firstn n (rev (last_n (S n) l)).
Proof.
  rewrite !last_n_rev, rev_app_distr.
  change (rev [a] ++ rev l) with (a :: rev l).
  rewrite firstn_cons, firstn_firstn, Nat.min_l by lia; reflexivity.
Qed.

Section Lists.

Variable json_loads : str -> pyres json.
Variable format_value : json -> str.
Variable G : genai.

(** X21. The statistics page lists at most ten records, the latest first.
    After a check that is recorded, the page lists its result first,
    followed by the first nine records of the page as it was. *)
Theorem recorded_check_heads_history_page st now number use_ai r st' :
  ~ In (normalize number) emergency_numbers ->
  analyze_phone_number json_loads format_value G st now number use_ai
  = (Ok r, st') ->
  history_page st' = r :: firstn 9 (history_page st)
  /\ List.length (history_page st') <= 10
  /\ List.length (history_page st)
     = Nat.min 10 (List.length (check_history st)).
Proof.
  intros Hne; apply str_in_not_In in Hne.
  rewrite (analyze_other json_loads format_value G st now number use_ai Hne).
  destruct (ai_check _ _ _ _ _ _ _) as [r1|e]; [|discriminate].
  intros [= -> <-]; unfold history_page, append_history; cbn [check_history].
  split; [apply page_after_append|].
  rewrite !last_n_rev; split.
  - apply firstn_le_length.
  - rewrite length_firstn, length_rev; reflexivity.
Qed.

End Lists.

(** X22. Over any sequence of checks, reports, additions and clearings,
    the sum of the report counts grows by the number of reports submitted
    with a number: every such report is counted once, and nothing else
    changes a count. *)
Theorem reports_are_counted (json_loads : str -> pyres json)
  (format_value : json -> str) actions st :
  total_reports
    (reported_cases (scam_db (run json_loads format_value actions st)))
  = (total_reports (reported_cases (scam_db st))
     + N.of_nat
         (List.length
            (filter (fun a => match a with
                              | SubmitReport _ (_ :: _) _ _ => true
                              | _ => false
                              end) actions)))%N.
Proof.
  unfold run; revert st; induction actions as [|a actions IH]; intros st;
    simpl; [lia|].
  rewrite IH; destruct a as [G now input | now n d c | n |]; simpl.
  - unfold check_button; destruct input as [|x s]; [reflexivity|].
    destruct (analyze_outcomes json_loads format_value G st now (x :: s)
                (ai_enabled st))
      as [(r & E & _) | [(r & E & _) | (e & E)]]; rewrite E; reflexivity.
  - destruct n as [|x n]; [reflexivity|].
    rewrite submit_report_total by discriminate.
    cbn [List.length]; lia.
  - unfold add_scam_number; destruct (_ && _); reflexivity.
  - reflexivity.
Qed.

(** ** Areas *)

Lemma separator_is_not_zero c : is_separator c = true -> (c =? 48)%N = false.
Proof.
  intros H; apply N.eqb_neq; intros ->; vm_compute in H; discriminate.
Qed.

(** X23. [identify_area] reads the input as typed: an input that begins
    with a hyphen, a white space character or a parenthesis gets no area,
    whatever follows. *)
Theorem area_needs_the_code_in_front c rest :
  is_separator c = true -> identify_area (c :: rest) = py "不明".
Proof.
  intros H; apply separator_is_not_zero in H.
  assert (Hs : forall p, startswith (c :: rest) (48%N :: p) = false)
    by (intros p; simpl; rewrite H; reflexivity).
  unfold identify_area, area_codes, first_prefix.
  repeat match goal with
         | |- context [startswith (c :: rest) ?p] =>
           replace (startswith (c :: rest) p) with false
             by (symmetry; exact (Hs _))
         end.
  reflexivity.
Qed.

(** ** The report page *)

(** X24. The report page lists at most five cases, the latest first.  A
    first report for a number puts the new case in front of the first four
    cases listed before; a further report for a number leaves the numbers
    listed, and their order, as they were. *)
Theorem report_page_after_report st now n d cat :
  n <> [] ->
  let st' := submit_report st now n d cat in
  (if reported n (reported_cases (scam_db st))
   then map case_number (recent_reports st')
        = map case_number (recent_reports st)
   else recent_reports st'
        = mkCase n (py "[" ++ cat ++ py "] " ++ d) now 1
          :: firstn 4 (recent_reports st))
  /\ List.length (recent_reports st') <= 5.
Proof.
  intros Hn st'; unfold recent_reports; split.
  - destruct (submit_report_cases st now n d cat Hn) as
      [[Hr E] | (l1 & c & l2 & Hc & Hc' & Hr & E)]; fold st' in E; rewrite E.
    + rewrite Hr; apply page_after_append.
    + rewrite Hc, (reported_middle _ l1 c l2 Hc'), !last_n_rev.
      rewrite <- !firstn_map, !map_rev, !map_app; reflexivity.
  - rewrite last_n_rev; apply firstn_le_length.
Qed.

Section Edges.

Variable json_loads : str -> pyres json.
Variable format_value : json -> str.
Variable G : genai.

(** X25. When the Gemini step is on and the adapter returns a value that
    is true in a test and is not an object (a non-empty list or text, a
    number other than zero, [True]), a check that is not an emergency check
    raises [AttributeError] and leaves the session as it was: nothing is
    recorded. *)
Theorem unusable_answer_raises st now number v :
  ~ In (normalize number) emergency_numbers ->
  ai_enabled st = true ->
  analyze_with_gemini json_loads G st number (basic_result st now number)
  = Ok v ->
  usable v = false ->
  analyze_phone_number json_loads format_value G st now number true
  = (Raise AttributeError, st).
Proof.
  intros Hne Hen Hv Hu; apply str_in_not_In in Hne.
  rewrite (analyze_other json_loads format_value G st now number true Hne).
  unfold ai_check; rewrite Hen, Hv; cbn [andb bind].
  unfold usable in Hu; apply orb_false_iff in Hu as [Ht Hd].
  apply negb_false_iff in Ht; rewrite Ht.
  destruct v; simpl in *; try reflexivity; discriminate.
Qed.

(** X26. An international number, one typed with a plus sign in front or
    whose normalized form starts with 010, that is not an emergency number
    is checked as caution or danger and carries the international warning
    (with a usable answer if the Gemini step runs). *)
Theorem international_number_is_at_least_caution st now number use_ai :
  international number (normalize number) = true ->
  ~ In (normalize number) emergency_numbers ->
  gemini_answer_usable json_loads G st now number use_ai ->
  exists r,
    analyze_phone_number json_loads format_value G st now number use_ai
    = (Ok r, append_history r st)
    /\ (risk_level r = Caution \/ risk_level r = Danger)
    /\ In (py "🌍 国際電話です") (warnings r).
Proof.
  intros Hi Hne Hai; apply str_in_not_In in Hne.
  rewrite (analyze_other json_loads format_value G st now number use_ai Hne).
  destruct (ai_check_returns json_loads format_value G st number use_ai _ Hai)
    as [r Hr].
  rewrite Hr; exists r; split; [reflexivity|].
  destruct (ai_check_escalates json_loads format_value G _ _ _ _ _ Hr)
    as [Hl (ws & Hw)].
  destruct (basic_result_international st now number Hi) as [Hs Hin].
  pose proof (basic_result_level st now number) as He.
  split.
  - destruct Hl as [E | E]; [|right; exact E].
    rewrite E; destruct (risk_level (basic_result st now number));
      [congruence | left; reflexivity | right; reflexivity | congruence].
  - rewrite Hw; apply in_or_app; left; exact Hin.
Qed.

End Edges.

(** * The further properties on concrete inputs *)

(** A number from abroad, checked without Gemini in a fresh session. *)
Lemma level_decision_table_witness :
  exists r,
    analyze_phone_number loads_sample format_sample (canned_genai (py "{}"))
      (initial_session (py "test-key")) (py "2026-01-01 09:00:00")
      (py "+81-90-1234-5678") false
    = (Ok r, append_history r (initial_session (py "test-key")))
    /\ risk_level r = Caution.
Proof.
  destruct (level_decision_table loads_sample format_sample
              (canned_genai (py "{}")) (initial_session (py "test-key"))
              (py "2026-01-01 09:00:00") (py "+81-90-1234-5678") false)
    as (r & E & L).
  - apply str_in_not_In; vm_compute; reflexivity.
  - reflexivity.
  - exists r; split; [exact E | rewrite L; vm_compute; reflexivity].
Defined.

(** A landline number with no finding. *)
Lemma safe_exactly_without_warning_witness :
  let r := basic_result (initial_session (py "test-key"))
             (py "2026-01-01 09:00:00") (py "03-5555-6666") in
  (risk_level r = Safe <-> warnings r = [])
  /\ (risk_level r = Safe ->
      recommendations r = [py "✅ 特に問題は検出されませんでした";
                           py "💡 不審な要求には注意してください"]).
Proof.
  intros r.
  apply (safe_exactly_without_warning loads_sample format_sample
           (canned_genai (py "{}")) (initial_session (py "test-key"))
           (py "2026-01-01 09:00:00") (py "03-5555-6666") false r
           (append_history r (initial_session (py "test-key")))).
  - apply str_in_not_In; vm_compute; reflexivity.
  - vm_compute; reflexivity.
Defined.

(** The check of 0120-999-999. *)
Lemma result_names_its_input_witness :
  let r := basic_result (initial_session (py "test-key"))
             (py "2026-01-01 09:00:00") (py "0120-999-999") in
  original r = py "0120-999-999"
  /\ normalized r = py "0120999999"
  /\ timestamp r = py "2026-01-01 09:00:00"
  /\ option_map type_ (caller_type r) = Some (py "企業カスタマーサポート").
Proof.
  intros r.
  destruct (result_names_its_input loads_sample format_sample
              (canned_genai (py "{}")) (initial_session (py "test-key"))
              (py "2026-01-01 09:00:00") (py "0120-999-999") false r
              (append_history r (initial_session (py "test-key"))))
    as (H1 & H2 & H3 & H4).
  - vm_compute; reflexivity.
  - rewrite H1, H2, H3, H4; repeat split; vm_compute; reflexivity.
Defined.

(** A report, then a check with the Gemini step on. *)
Lemma reported_number_is_danger_witness :
  let st := mkSession [] initial_scam_database (py "test-key") true in
  let st1 := submit_report st (py "2026-01-01 09:00:00") (py "090-0000-1111")
               (py "bank transfer") (py "詐欺") in
  exists r,
    analyze_phone_number loads_sample format_sample
      (canned_genai (py "no json")) st1 (py "2026-01-02 10:00:00")
      (py "090-0000-1111") true
    = (Ok r, append_history r st1)
    /\ risk_level r = Danger
    /\ In (py "⚠️ 1件の通報あり") (warnings r)
    /\ In (py "通報内容: [詐欺] bank transfer") (details r).
Proof.
  intros st st1.
  destruct (reported_number_is_danger loads_sample format_sample
              (canned_genai (py "no json")) st (py "2026-01-01 09:00:00")
              (py "2026-01-02 10:00:00") (py "090-0000-1111")
              (py "bank transfer") (py "詐欺") true)
    as (r & c & E & L & Hc & Hn & Hw & Hd).
  - discriminate.
  - apply str_in_not_In; vm_compute; reflexivity.
  - intros _; exists (number_fallback (py "no json")).
    split; vm_compute; reflexivity.
  - exists r; split; [exact E | split; [exact L|]].
    destruct Hc as [<- | []].
    split; [exact Hw | exact Hd].
Defined.

(** An addition on the database page, then a check. *)
Lemma added_number_is_danger_witness :
  let st := mkSession [] initial_scam_database (py "test-key") true in
  let st1 := add_scam_number st true (py "080-2222-3333") in
  exists r,
    analyze_phone_number loads_sample format_sample
      (canned_genai (py "{}")) st1 (py "2026-01-02 10:00:00")
      (py "080-2222-3333") true
    = (Ok r, append_history r st1)
    /\ risk_level r = Danger
    /\ In (py "🚨 既知の詐欺電話番号です！") (warnings r).
Proof.
  intros st st1.
  apply (added_number_is_danger loads_sample format_sample
           (canned_genai (py "{}")) st (py "2026-01-02 10:00:00")
           (py "080-2222-3333") true).
  - discriminate.
  - apply str_in_not_In; vm_compute; reflexivity.
  - intros _; exists (JDict []); split; vm_compute; reflexivity.
Defined.

Lemma offline_raises_only_Exception : raises_only_Exception offline_genai.
Proof.
  unfold raises_only_Exception, offline_genai; simpl.
  repeat split; intros; try discriminate.
  match goal with H : Raise _ = Raise _ |- _ => injection H as <- end.
  reflexivity.
Qed.

(** The adapters with a client whose requests fail. *)
Lemma adapters_never_raise_witness :
  let st := mkSession [] initial_scam_database (py "test-key") true in
  (exists v,
      analyze_with_gemini loads_sample offline_genai st (py "03-5555-6666")
        (basic_result st (py "2026-01-01 09:00:00") (py "03-5555-6666"))
      = Ok v)
  /\ (exists v,
        analyze_conversation_with_gemini loads_sample offline_genai st
          (py "hello") = Ok v).
Proof.
  intros st; apply adapters_never_raise, offline_raises_only_Exception.
Defined.

(** A check with the Gemini step on and a client whose requests fail. *)
Lemma failed_request_keeps_basic_result_witness :
  let st := mkSession [] initial_scam_database (py "test-key") true in
  let b := basic_result st (py "2026-01-01 09:00:00") (py "050-3333-4444") in
  analyze_phone_number loads_sample format_sample offline_genai st
    (py "2026-01-01 09:00:00") (py "050-3333-4444") true
  = (Ok b, append_history b st)
  /\ ai_analysis b = JNull.
Proof.
  intros st b.
  apply failed_request_keeps_basic_result.
  - apply str_in_not_In; vm_compute; reflexivity.
  - reflexivity.
  - apply offline_raises_only_Exception.
  - intros p; eexists; reflexivity.
Defined.

(** A check with the Gemini step on and a model that answers with plain
    text. *)
Lemma unparsable_answer_keeps_basic_result_witness :
  let st := mkSession [] initial_scam_database (py "test-key") true in
  let r := set_ai_analysis (number_fallback (py "I cannot answer"))
             (basic_result st (py "2026-01-01 09:00:00") (py "050-3333-4444")) in
  analyze_phone_number loads_sample format_sample
    (canned_genai (py "I cannot answer")) st (py "2026-01-01 09:00:00")
    (py "050-3333-4444") true
  = (Ok r, append_history r st).
Proof.
  intros st r.
  apply (unparsable_answer_keeps_basic_result loads_sample format_sample
           (canned_genai (py "I cannot answer")) st (py "2026-01-01 09:00:00")
           (py "050-3333-4444") (mkResponse (Ok (py "I cannot answer")))
           (py "I cannot answer") (mkExn "JSONDecodeError" true)).
  - apply str_in_not_In; vm_compute; reflexivity.
  - reflexivity.
  - vm_compute; reflexivity.
  - reflexivity.
  - intros p; reflexivity.
  - reflexivity.
  - vm_compute; reflexivity.
Defined.

(** A landline number with no finding, judged dangerous by the model. *)
Lemma gemini_verdict_witness :
  let st := mkSession [] initial_scam_database (py "test-key") true in
  exists r,
    analyze_phone_number loads_verdict format_sample
      (canned_genai verdict_text) st (py "2026-01-01 09:00:00")
      (py "03-5555-6666") true
    = (Ok r, append_history r st)
    /\ risk_level r = Danger
    /\ warnings r = [py "🤖 AI判定: 危険 (信頼度 90%)"].
Proof.
  intros st.
  destruct (gemini_verdict loads_verdict format_sample
              (canned_genai verdict_text) st (py "2026-01-01 09:00:00")
              (py "03-5555-6666")
              [ (py "ai_risk_assessment", JStr (py "危険"));
                (py "confidence_score", JInt 90) ])
    as (r & E & _ & L & W).
  - apply str_in_not_In; vm_compute; reflexivity.
  - reflexivity.
  - discriminate.
  - vm_compute; reflexivity.
  - exists r; split; [exact E|].
    split; [rewrite L | rewrite W]; vm_compute; reflexivity.
Defined.

(** The same check with two clients, the flag of the session being off. *)
Lemma gemini_off_is_not_consulted_witness :
  analyze_phone_number loads_sample format_sample (canned_genai (py "[1]"))
    (initial_session (py "test-key")) (py "2026-01-01 09:00:00")
    (py "050-3333-4444") true
  = analyze_phone_number loads_verdict format_sample offline_genai
      (initial_session (py "test-key")) (py "2026-01-01 09:00:00")
      (py "050-3333-4444") true.
Proof. apply gemini_off_is_not_consulted; reflexivity. Defined.

(** The checks of 119. *)
Lemma emergency_level_and_caller_type_agree_witness :
  exists r st',
    analyze_phone_number loads_sample format_sample (canned_genai (py "{}"))
      (initial_session (py "test-key")) (py "2026-01-01 09:00:00")
      (py "119") false = (Ok r, st')
    /\ (risk_level r = Emergency
        <-> option_map type_ (caller_type r) = Some (py "緊急通報番号")).
Proof.
  do 2 eexists; split; [reflexivity|].
  eapply (emergency_level_and_caller_type_agree loads_sample format_sample
            (canned_genai (py "{}")) (initial_session (py "test-key"))
            (py "2026-01-01 09:00:00") (py "119") false).
  reflexivity.
Defined.

(** The shipped prefix +1-876 and a number typed with it. *)
Lemma prefix_with_separator_never_matches_witness :
  let r := new_result (py "+1-876-555-1234") (py "+18765551234")
             (py "2026-01-01 09:00:00") in
  In (py "+1-876") (suspicious_prefixes initial_scam_database)
  /\ startswith (normalize (py "+1-876-555-1234")) (py "+1-876") = false
  /\ prefix_check (normalize (py "+1-876-555-1234")) r (py "+1-876") = r.
Proof.
  intros r; split; [vm_compute; tauto|].
  apply prefix_with_separator_never_matches.
  vm_compute; reflexivity.
Defined.

(** The page after the first check of a session. *)
Lemma recorded_check_heads_history_page_witness :
  let st := initial_session (py "test-key") in
  let r := basic_result st (py "2026-01-01 09:00:00") (py "03-5555-6666") in
  history_page (append_history r st) = r :: firstn 9 (history_page st)
  /\ List.length (history_page (append_history r st)) <= 10
  /\ List.length (history_page st) = Nat.min 10 (List.length (check_history st)).
Proof.
  intros st r.
  apply (recorded_check_heads_history_page loads_sample format_sample
           (canned_genai (py "{}")) st (py "2026-01-01 09:00:00")
           (py "03-5555-6666") false r (append_history r st)).
  - apply str_in_not_In; vm_compute; reflexivity.
  - vm_compute; reflexivity.
Defined.

(** A Tokyo number typed with a parenthesis in front. *)
Lemma area_needs_the_code_in_front_witness :
  identify_area (py "(03) 1234-5678") = py "不明"
  /\ identify_area (py "03-1234-5678") = py "東京".
Proof.
  split; [|vm_compute; reflexivity].
  apply (area_needs_the_code_in_front 40%N (py "03) 1234-5678")).
  vm_compute; reflexivity.
Defined.

(** The report page after a first report. *)
Lemma report_page_after_report_witness :
  let st := initial_session (py "test-key") in
  recent_reports
    (submit_report st (py "2026-01-01 09:00:00") (py "090-0000-1111")
       (py "bank transfer") (py "詐欺"))
  = [mkCase (py "090-0000-1111") (py "[詐欺] bank transfer")
       (py "2026-01-01 09:00:00") 1].
Proof.
  intros st.
  destruct (report_page_after_report st (py "2026-01-01 09:00:00")
              (py "090-0000-1111") (py "bank transfer") (py "詐欺"))
    as [H _]; [discriminate|].
  vm_compute in H.
  vm_compute; exact H.
Defined.

(** A model that answers with a JSON list. *)
Lemma unusable_answer_raises_witness :
  let st := mkSession [] initial_scam_database (py "test-key") true in
  analyze_phone_number loads_sample format_sample (canned_genai (py "[1]")) st
    (py "2026-01-01 09:00:00") (py "03-5555-6666") true
  = (Raise AttributeError, st).
Proof.
  intros st.
  apply (unusable_answer_raises loads_sample format_sample
           (canned_genai (py "[1]")) st (py "2026-01-01 09:00:00")
           (py "03-5555-6666") (JList [JInt 1])).
  - apply str_in_not_In; vm_compute; reflexivity.
  - reflexivity.
  - vm_compute; reflexivity.
  - reflexivity.
Defined.

(** A number typed with the international prefix 010. *)
Lemma international_number_is_at_least_caution_witness :
  let st := initial_session (py "test-key") in
  exists r,
    analyze_phone_number loads_sample format_sample (canned_genai (py "{}")) st
      (py "2026-01-01 09:00:00") (py "010-1-212-555-0100") false
    = (Ok r, append_history r st)
    /\ (risk_level r = Caution \/ risk_level r = Danger)
    /\ In (py "🌍 国際電話です") (warnings r).
Proof.
  intros st; apply international_number_is_at_least_caution.
  - vm_compute; reflexivity.
  - apply str_in_not_In; vm_compute; reflexivity.
  - intros H; vm_compute in H; discriminate.
Defined.

(** When the check of a landline number returns. *)
Lemma analyze_returns_iff_witness :
  let st := mkSession [] initial_scam_database (py "test-key") true in
  (exists r st',
      analyze_phone_number loads_sample format_sample
        (canned_genai (py "[1]")) st (py "2026-01-01 09:00:00")
        (py "03-5555-6666") true = (Ok r, st'))
  <-> gemini_answer_usable loads_sample (canned_genai (py "[1]")) st
        (py "2026-01-01 09:00:00") (py "03-5555-6666") true.
Proof.
  intros st; apply analyze_returns_iff.
  apply str_in_not_In; vm_compute; reflexivity.
Defined.

(** The shipped prefix +1-876 on the input as typed. *)
Lemma shipped_prefix_on_raw_input_witness :
  let st := mkSession [] initial_scam_database (py "test-key") true in
  exists r,
    analyze_phone_number loads_sample format_sample (canned_genai (py "{}")) st
      (py "2026-01-01 09:00:00") (py "+1-876-555-1234") true
    = (Ok r, append_history r st)
    /\ (risk_level r = Caution \/ risk_level r = Danger).
Proof.
  intros st.
  apply shipped_prefix_on_raw_input with (prefix := py "+1-876").
  - reflexivity.
  - vm_compute; tauto.
  - vm_compute; reflexivity.
  - apply str_in_not_In; vm_compute; reflexivity.
  - intros _; exists (JDict []); split; vm_compute; reflexivity.
Defined.
